(** * TeamsLogAnalyzer: the log pipeline and the SIP taxonomy, embedded

    A shallow embedding of the five scripts of the repository:

    - [SIP.py]          segmentation of a log text into message blocks and
                        field extraction ([parse_log_line]);
    - [SIP2.py]         the session correlator ([parse_log_file]);
    - [TeamsLog.py], [TeasmLogsV2.py], [TeasmLogsV3.py]
                        the three revisions of the SIP code taxonomy
                        ([explain_sip], [determine_call_status]) and of the
                        spreadsheet pass ([process_file]).

    Text is a [string] of 8-bit characters read as code points below 256;
    on that range Python's [\d] is [0-9], and [\w] and [str.isspace] are the
    tables [is_word] and [is_space] below.  The regular expressions of the
    scripts are kept as data ([regex]) and run by a backtracking matcher
    with Python's priorities (leftmost start, greedy or lazy repetition,
    first alternative first). *)

From Stdlib Require Import ZArith QArith Ascii String List Bool Lia.
From Stdlib Require Import Qabs Qpower Floats.SpecFloat.
From stdpp Require Import gmap strings list fin_maps.

Local Open Scope string_scope.

(** ** Characters *)

Module Chars.

Definition LF : ascii := "010"%char.

Definition code (c : ascii) : N := N_of_ascii c.

Definition between (lo hi : N) (c : ascii) : bool :=
  ((lo <=? code c) && (code c <=? hi))%N.

(** [\d] *)
Definition is_digit (c : ascii) : bool := between 48 57 c.

(** [\w]: letters, digits and the underscore; above 127 the Latin-1
    letters and numeric signs that [str.isalnum] accepts. *)
Definition is_word (c : ascii) : bool :=
  is_digit c || between 65 90 c || between 97 122 c || (code c =? 95)%N
  || (code c =? 170)%N || (code c =? 178)%N || (code c =? 179)%N
  || (code c =? 181)%N || (code c =? 185)%N || (code c =? 186)%N
  || between 188 190 c || between 192 214 c || between 216 246 c
  || between 248 255 c.

(** [[\w:]] *)
Definition is_word_or_colon (c : ascii) : bool :=
  is_word c || (code c =? 58)%N.

(** [.] and [[^\n]] *)
Definition not_newline (c : ascii) : bool := negb (code c =? 10)%N.

(** [str.isspace], the characters removed by [str.strip()] *)
Definition is_space (c : ascii) : bool :=
  between 9 13 c || between 28 32 c || (code c =? 133)%N || (code c =? 160)%N.

End Chars.

(** ** Strings: the Python string operations the scripts use *)

Module Str.

Definition nl : string := String Chars.LF "".

(** [s.startswith(p)], returning the rest of [s] after [p]. *)
Fixpoint strip_prefix (p s : string) : option string :=
  match p with
  | "" => Some s
  | String a p' =>
      match s with
      | String b s' => if Ascii.eqb a b then strip_prefix p' s' else None
      | "" => None
      end
  end.

Definition startswith (s p : string) : bool :=
  match strip_prefix p s with Some _ => true | None => false end.

(** [sub in s] *)
Fixpoint contains (sub s : string) : bool :=
  startswith s sub ||
  match s with
  | String _ s' => contains sub s'
  | "" => false
  end.

(** [sep.join(l)] *)
Fixpoint join (sep : string) (l : list string) : string :=
  match l with
  | [] => ""
  | [x] => x
  | x :: l' => x ++ sep ++ join sep l'
  end.

(** [s.split('\n')]: the pieces between line feeds; never empty. *)
Fixpoint split_lines (s : string) : list string :=
  match s with
  | "" => [""]
  | String c s' =>
      if Ascii.eqb c Chars.LF then "" :: split_lines s'
      else match split_lines s' with
           | l :: ls => String c l :: ls
           | [] => [String c ""]
           end
  end.

(** Iterating over a text file: every line keeps its line feed, the last
    one has none when the text does not end with one. *)
Fixpoint file_lines (s : string) : list string :=
  match s with
  | "" => []
  | String c s' =>
      if Ascii.eqb c Chars.LF then nl :: file_lines s'
      else match file_lines s' with
           | l :: ls => String c l :: ls
           | [] => [String c ""]
           end
  end.

(** [s[n:]] *)
Fixpoint drop (n : nat) (s : string) : string :=
  match n, s with
  | S n', String _ s' => drop n' s'
  | _, _ => s
  end.

(** [c in s] for one character. *)
Fixpoint has_char (c : ascii) (s : string) : bool :=
  match s with
  | "" => false
  | String x s' => Ascii.eqb x c || has_char c s'
  end.

(** [s.rsplit('.', 1)[0]]: the text before the last dot, all of [s] when
    it has no dot. *)
Fixpoint rsplit_dot_head (s : string) : string :=
  match s with
  | "" => ""
  | String c s' =>
      if Ascii.eqb c "." && negb (has_char "." s') then ""
      else String c (rsplit_dot_head s')
  end.

(** [s.replace(a, b)] for one-character [a] and [b]. *)
Fixpoint replace_char (a b : ascii) (s : string) : string :=
  match s with
  | "" => ""
  | String c s' => String (if Ascii.eqb c a then b else c) (replace_char a b s')
  end.

Fixpoint lstrip (s : string) : string :=
  match s with
  | String c s' => if Chars.is_space c then lstrip s' else s
  | "" => ""
  end.

(** [bool(s.strip())]: some character of [s] is not white space. *)
Definition strip_nonempty (s : string) : bool :=
  match lstrip s with "" => false | _ => true end.

End Str.

(** ** Regular expressions

    The patterns of the scripts use literals, character classes, bounded
    and unbounded repetition of one character class (greedy [{m,n}], [+]
    and lazy [+?]), alternation, one capturing group, [^] and [$]. *)

Module Re.

Inductive regex : Type :=
| Lit (l : string)
| Rep (p : ascii -> bool) (greedy : bool) (lo : nat) (hi : option nat)
| Seq (r1 r2 : regex)
| Alt (r1 r2 : regex)
| Grp (r : regex)
| Bol
| Eol.

(** A match: where it ends and what group 1 holds. *)
Record rmatch : Type := MkMatch { m_end : nat; m_group1 : option string }.

Definition cont : Type := nat -> string -> option string -> option rmatch.

Definition may_repeat (hi : option nat) : bool :=
  match hi with Some O => false | _ => true end.

Definition one_less (hi : option nat) : option nat :=
  match hi with Some n => Some (pred n) | None => None end.

Definition or_else (a b : option rmatch) : option rmatch :=
  match a with Some m => Some m | None => b end.

(** Repetition of a class [p] between [lo] and [hi] times, followed by
    [k].  Greedy: one more character first, then stop; lazy: the reverse. *)
Fixpoint rep (p : ascii -> bool) (greedy : bool) (lo : nat) (hi : option nat)
    (pos : nat) (s : string) (k : nat -> string -> option rmatch)
    {struct s} : option rmatch :=
  let stop := match lo with O => k pos s | S _ => None end in
  let more :=
    match s with
    | String c s' =>
        if p c && may_repeat hi
        then rep p greedy (pred lo) (one_less hi) (S pos) s' k
        else None
    | "" => None
    end in
  if greedy then or_else more stop else or_else stop more.

(** [exec r pos s cap k]: match [r] at offset [pos], where [s] is the text
    from [pos] on, then continue with [k]. *)
Fixpoint exec (r : regex) (pos : nat) (s : string) (cap : option string)
    (k : cont) {struct r} : option rmatch :=
  match r with
  | Lit l =>
      match Str.strip_prefix l s with
      | Some s' => k (pos + String.length l) s' cap
      | None => None
      end
  | Rep p greedy lo hi =>
      rep p greedy lo hi pos s (fun pos' s' => k pos' s' cap)
  | Seq r1 r2 =>
      exec r1 pos s cap (fun pos' s' cap' => exec r2 pos' s' cap' k)
  | Alt r1 r2 => or_else (exec r1 pos s cap k) (exec r2 pos s cap k)
  | Grp r1 =>
      exec r1 pos s cap
        (fun pos' s' _ => k pos' s' (Some (String.substring 0 (pos' - pos) s)))
  | Bol => match pos with O => k pos s cap | S _ => None end
  | Eol =>
      if String.eqb s "" || String.eqb s Str.nl then k pos s cap else None
  end.

Definition match_at (r : regex) (pos : nat) (s : string) : option rmatch :=
  exec r pos s None (fun pos' _ cap => Some (MkMatch pos' cap)).

(** [re.match(r, s)] *)
Definition re_match (r : regex) (s : string) : option rmatch := match_at r 0 s.

(** [re.search(r, s)]: the match at the leftmost offset that has one. *)
Fixpoint search_from (r : regex) (pos : nat) (s : string) : option rmatch :=
  or_else (match_at r pos s)
    match s with
    | String _ s' => search_from r (S pos) s'
    | "" => None
    end.

Definition re_search (r : regex) (s : string) : option rmatch :=
  search_from r 0 s.

(** [m.group(1)] *)
Definition group1 (m : rmatch) : string := default "" (m_group1 m).

(** [re.findall(r, s)] for a pattern with one group: group 1 of the
    successive matches, each search resuming where the last match ended
    ([skip] counts the characters of the last match still to pass). *)
Fixpoint findall_from (r : regex) (pos skip : nat) (s : string) : list string :=
  match skip with
  | S n =>
      match s with
      | String _ s' => findall_from r (S pos) n s'
      | "" => []
      end
  | O =>
      match match_at r pos s with
      | Some m =>
          group1 m ::
          match s with
          | String _ s' => findall_from r (S pos) (pred (m_end m - pos)) s'
          | "" => []
          end
      | None =>
          match s with
          | String _ s' => findall_from r (S pos) 0 s'
          | "" => []
          end
      end
  end.

Definition re_findall (r : regex) (s : string) : list string :=
  findall_from r 0 0 s.

(** Shorthands for the pieces the patterns are made of. *)
Definition digits (lo hi : nat) : regex := Rep Chars.is_digit true lo (Some hi).
Definition plus (p : ascii -> bool) : regex := Rep p true 1 None.
Definition lazy_plus (p : ascii -> bool) : regex := Rep p false 1 None.

Fixpoint seq (rs : list regex) : regex :=
  match rs with
  | [] => Lit ""
  | [r] => r
  | r :: rs' => Seq r (seq rs')
  end.

Fixpoint alt (rs : list regex) : regex :=
  match rs with
  | [] => Lit ""
  | [r] => r
  | r :: rs' => Alt r (alt rs')
  end.

(** [\d{2}:\d{2}:\d{2}\.\d{3}] *)
Definition hms_millis : regex :=
  seq [digits 2 2; Lit ":"; digits 2 2; Lit ":"; digits 2 2; Lit "."; digits 3 3].

(** [\d{1,3}\.\d{1,3}\.\d{1,3}\.\d{1,3}] *)
Definition dotted_quad : regex :=
  seq [digits 1 3; Lit "."; digits 1 3; Lit "."; digits 1 3; Lit "."; digits 1 3].

End Re.

(** ** SIP2.py: the session correlator *)

Module SIP2.
Import Re.

(** One entry of [self.log_entries]; the fields are the keys of the dict
    literal built at a call end, in its order. *)
Record call_record : Type := MkCallRecord {
  call_end_time : string;
  session_id : string;
  ip_group : string;
  caller : string;
  callee : string;
  direction : string;
  remote_ip : string;
  termination_reason : string;
  duration : string
}.

(** The patterns of [parse_log_file]. *)
Definition timestamp_re : regex := Grp hms_millis.
Definition sid_re : regex :=
  seq [Lit "[SID="; Grp (plus Chars.is_word_or_colon); Lit "]"].
Definition ip_re : regex := Grp dotted_quad.
Definition ip_group_re : regex := seq [Lit "IPG_"; Grp (plus Chars.is_word)].
Definition from_re : regex :=
  seq [Lit "FROM: <"; Grp (lazy_plus Chars.not_newline); Lit ">"].
Definition to_re : regex :=
  seq [Lit "TO: <"; Grp (lazy_plus Chars.not_newline); Lit ">"].
Definition term_reason_re : regex :=
  seq [Lit "Call End Reason: "; Grp (lazy_plus Chars.not_newline); Eol].

(** [current_session.get(key, dflt)] *)
Definition get (current_session : gmap string string) (key dflt : string) : string :=
  default dflt (current_session !! key).

(** The values read from the line itself once its timestamp matched. *)
Definition line_remote_ip (line : string) : string :=
  let ip_matches := re_findall ip_re line in
  if Nat.ltb 1 (List.length ip_matches) then nth 1 ip_matches "" else "".

Definition line_ip_group (line : string) : string :=
  match re_search ip_group_re line with
  | Some ip_group_match => group1 ip_group_match
  | None => ""
  end.

Definition line_direction (line : string) : string :=
  if Str.contains "Incoming SIP Message" line then "Incoming"
  else if Str.contains "Outgoing SIP Message" line then "Outgoing"
  else "".

Definition line_sid (line : string) : string :=
  match re_search sid_re line with
  | Some sid_match => group1 sid_match
  | None => ""
  end.

(** The three updates of [current_session] made from the line. *)
Definition update_caller (line : string) (current_session : gmap string string)
    : gmap string string :=
  if Str.contains "FROM:" line then
    match re_search from_re line with
    | Some from_match => <["caller" := group1 from_match]> current_session
    | None => current_session
    end
  else current_session.

Definition update_callee (line : string) (current_session : gmap string string)
    : gmap string string :=
  if Str.contains "TO:" line then
    match re_search to_re line with
    | Some to_match => <["callee" := group1 to_match]> current_session
    | None => current_session
    end
  else current_session.

Definition update_reason (line : string) (current_session : gmap string string)
    : gmap string string :=
  match re_search term_reason_re line with
  | Some term_reason_match =>
      <["termination_reason" := group1 term_reason_match]> current_session
  | None => current_session
  end.

Definition update_session (line : string) (current_session : gmap string string)
    : gmap string string :=
  update_reason line (update_callee line (update_caller line current_session)).

Definition is_call_end (line : string) : bool :=
  Str.contains "Call End" line || Str.contains "Released" line.

(** The dict appended at a call end. *)
Definition make_entry (timestamp line : string)
    (current_session : gmap string string) : call_record :=
  {| call_end_time := timestamp;
     session_id := line_sid line;
     ip_group := line_ip_group line;
     caller := get current_session "caller" "";
     callee := get current_session "callee" "";
     direction := line_direction line;
     remote_ip := line_remote_ip line;
     termination_reason := get current_session "termination_reason" "Normal";
     duration := get current_session "duration" "" |}.

(** The loop state: [current_session] and [self.log_entries]. *)
Record state : Type := MkState {
  current_session : gmap string string;
  log_entries : list call_record
}.

(** One iteration of [for line in file]. *)
Definition step (st : state) (line : string) : state :=
  match re_match timestamp_re line with
  | Some timestamp_match =>
      let timestamp := group1 timestamp_match in
      let session := update_session line (current_session st) in
      if is_call_end line
      then MkState ∅ (log_entries st ++ [make_entry timestamp line session])
      else MkState session (log_entries st)
  | None => st
  end.

(** [parse_log_file] on an analyzer whose [log_entries] is [entries]:
    the entries after the loop. *)
Definition parse_lines (entries : list call_record) (lines : list string) : state :=
  fold_left step lines (MkState ∅ entries).

Definition parse_log_file (entries : list call_record) (text : string)
    : list call_record :=
  log_entries (parse_lines entries (Str.file_lines text)).

(** [main]: [input_file.rsplit('.', 1)[0] + '_analysis.xlsx'] *)
Definition output_file (input_file : string) : string :=
  Str.rsplit_dot_head input_file ++ "_analysis.xlsx".

End SIP2.

Definition scenario_text : string :=
  "10:00:00.000 INVITE ... FROM: <a@x> ... [SID=S1]" ++ Str.nl ++
  "10:00:01.000 ... TO: <b@x> ... [SID=S1]" ++ Str.nl ++
  "10:00:05.000 Call End ... [SID=S1]".

(** ** SIP.py: message blocks and field extraction *)

Module SIP.
Import Re.

(** The [patterns] dict of [parse_log_line], in its order. *)
Definition patterns : list (string * regex) :=
  [ ("timestamp", Seq Bol (Grp hms_millis));
    ("ip", Grp dotted_quad);
    ("sid", seq [Lit "[SID="; Grp (plus Chars.is_word_or_colon); Lit "]"]);
    ("message_type",
      Grp (alt [Lit "OPTIONS"; Lit "INVITE"; Lit "ACK"; Lit "BYE"; Lit "CANCEL";
                Lit "REGISTER"; Lit "NOTIFY"; Seq (Lit "SIP/2.0 ") (digits 3 3)]));
    ("call_id", Seq (Lit "CALL-ID: ") (Grp (plus Chars.not_newline)));
    ("from_uri", Seq (Lit "FROM: ") (Grp (plus Chars.not_newline)));
    ("to_uri", Seq (Lit "TO: ") (Grp (plus Chars.not_newline)));
    ("user_agent", Seq (Lit "USER-AGENT: ") (Grp (plus Chars.not_newline))) ].

Definition status_re : regex := Seq (Lit "SIP/2.0 ") (Grp (digits 3 3)).

(** [match.group(1) if match else ''] *)
Definition group1_or_empty (m : option rmatch) : string :=
  match m with Some m' => group1 m' | None => "" end.

Definition direction_of (line : string) : string :=
  if Str.contains "Incoming SIP Message" line then "Incoming"
  else if Str.contains "Outgoing SIP Message" line then "Outgoing"
  else "Internal".

(** The loop [for key, pattern in patterns.items()]. *)
Definition extract_patterns (line : string) (entry : gmap string string)
    (ps : list (string * regex)) : gmap string string :=
  fold_left
    (fun entry kp => <[fst kp := group1_or_empty (re_search (snd kp) line)]> entry)
    ps entry.

Definition parse_log_line (line : string) : gmap string string :=
  let entry := extract_patterns line ∅ patterns in
  let entry := <["direction" := direction_of line]> entry in
  <["status_code" := group1_or_empty (re_search status_re line)]> entry.

(** [analyze_logs], the split into message blocks. *)
Definition block_start_re : regex := Seq Bol hms_millis.

Definition starts_block (line : string) : bool :=
  match re_match block_start_re line with Some _ => true | None => false end.

(** Loop state: [messages] and [current_message]. *)
Record seg_state : Type := MkSeg {
  messages : list string;
  current_message : list string
}.

(** [if current_message: messages.append('\n'.join(current_message))] *)
Definition flush (st : seg_state) : list string :=
  match current_message st with
  | [] => messages st
  | _ :: _ => messages st ++ [Str.join Str.nl (current_message st)]
  end.

Definition seg_step (st : seg_state) (line : string) : seg_state :=
  let st' :=
    if starts_block line then
      match current_message st with
      | [] => st
      | _ :: _ => MkSeg (flush st) []
      end
    else st in
  MkSeg (messages st') (current_message st' ++ [line]).

Definition segment_lines (lines : list string) : list string :=
  flush (fold_left seg_step lines (MkSeg [] [])).

(** [messages] after both loops of lines 71-82. *)
Definition segment (log_content : string) : list string :=
  segment_lines (Str.split_lines log_content).

(** The blocks that reach [parse_log_line]: [if message.strip()]. *)
Definition kept_messages (log_content : string) : list string :=
  List.filter Str.strip_nonempty (segment log_content).

Definition parsed_data (log_content : string) : list (gmap string string) :=
  map parse_log_line (kept_messages log_content).

(** [analyze_logs]: [self.filename.rsplit('.', 1)[0] + '_analysis.xlsx'] *)
Definition output_file (filename : string) : string :=
  Str.rsplit_dot_head filename ++ "_analysis.xlsx".

(** The [Count] column of the Statistics sheet, for the data frame built
    from the rows [df]. *)

(** [len(df[df[key] == value])] *)
Definition count_eq (key value : string) (df : list (gmap string string)) : nat :=
  length (List.filter (fun row => bool_decide (row !! key = Some value)) df).

(** [len(df[df[key].str.startswith(prefix, na=False)])] *)
Definition count_startswith (key prefix : string)
    (df : list (gmap string string)) : nat :=
  length (List.filter
            (fun row => match row !! key with
                        | Some v => Str.startswith v prefix
                        | None => false
                        end) df).

(** [df[key].nunique()] *)
Definition nunique (key : string) (df : list (gmap string string)) : nat :=
  size (list_to_set (omap (fun row : gmap string string => row !! key) df)
          : gset string).

Record statistics : Type := MkStatistics {
  total_messages : nat;
  incoming_messages : nat;
  outgoing_messages : nat;
  internal_messages : nat;
  unique_sessions : nat;
  options_messages : nat;
  success_responses : nat;
  client_errors : nat;
  server_errors : nat
}.

Definition stats_counts (df : list (gmap string string)) : statistics :=
  {| total_messages := length df;
     incoming_messages := count_eq "direction" "Incoming" df;
     outgoing_messages := count_eq "direction" "Outgoing" df;
     internal_messages := count_eq "direction" "Internal" df;
     unique_sessions := nunique "sid" df;
     options_messages := count_eq "message_type" "OPTIONS" df;
     success_responses := count_startswith "status_code" "2" df;
     client_errors := count_startswith "status_code" "4" df;
     server_errors := count_startswith "status_code" "5" df |}.

End SIP.

(** ** Python integers as text *)

Module Py.

Definition digit_char (d : N) : ascii := ascii_of_N (48 + d).

(** The decimal digits of [n], most significant first, in front of [acc];
    [fuel] bounds the number of divisions by ten. *)
Fixpoint digits_acc (fuel : nat) (n : N) (acc : string) : string :=
  let acc' := String (digit_char (n mod 10)) acc in
  match fuel with
  | O => acc'
  | S fuel' =>
      if (n / 10 =? 0)%N then acc' else digits_acc fuel' (n / 10)%N acc'
  end.

(** [str(n)] for [n >= 0]; [n] has at most [log2 n + 1] decimal digits. *)
Definition str_nat (n : N) : string :=
  digits_acc (N.to_nat (N.log2 n)) n "".

(** [str(z)], also what an f-string prints for [{z}]. *)
Definition str_int (z : Z) : string :=
  match z with
  | Z0 => "0"
  | Zpos p => str_nat (Npos p)
  | Zneg p => "-" ++ str_nat (Npos p)
  end.

End Py.

(** ** The SIP code tables

    [sip_explanations] and [detailed_explanations] are the same dict
    literals in TeamsLog.py and in TeasmLogsV3.py. *)

Module Tables.

Definition sip_explanations : gmap Z string :=
  list_to_map
  [ (100, "Call is being processed. Please wait.");
    (180, "Phone is ringing at the destination.");
    (181, "Call is being redirected to another number.");
    (182, "Call is in a queue and will be handled soon.");
    (183, "Call setup is in progress.");
    (200, "Call connected successfully.");
    (202, "Request accepted and will be processed.");
    (300, "Multiple call destinations found.");
    (301, "Call destination has permanently changed.");
    (302, "Call destination is temporarily different.");
    (305, "You must use a specific network route.");
    (380, "Alternative communication method available.");
    (400, "Invalid call request. Check the number.");
    (401, "Authentication required to complete the call.");
    (403, "Call blocked or not allowed.");
    (404, "Phone number or user not found.");
    (405, "Calling method not permitted.");
    (406, "Call cannot be completed due to incompatible settings.");
    (407, "Proxy authentication needed.");
    (408, "No response from the destination. Timeout occurred.");
    (410, "Number is no longer in service.");
    (413, "Call request too large to process.");
    (414, "Phone number too complicated to dial.");
    (415, "Unsupported communication method.");
    (416, "Unrecognized phone number format.");
    (420, "Unsupported communication feature.");
    (421, "Missing required communication feature.");
    (423, "Call setup time too short.");
    (480, "Destination temporarily unavailable.");
    (481, "Call cannot be found or tracked.");
    (482, "Call routing has created a loop.");
    (483, "Too many network hops to complete call.");
    (484, "Incomplete phone number.");
    (485, "Unclear which number to call.");
    (486, "Destination is currently busy.");
    (487, "Call was cancelled or stopped.");
    (488, "Call cannot be accepted by recipient.");
    (500, "Network error. Unable to complete call.");
    (501, "Call feature not supported.");
    (502, "Network routing problem.");
    (503, "Network overloaded or maintenance.");
    (504, "Network route timeout.");
    (505, "Unsupported communication protocol.");
    (513, "Call request too large.");
    (600, "User is busy everywhere.");
    (603, "Call explicitly rejected.");
    (604, "User does not exist.");
    (606, "Call settings prevent connection.") ]%Z.

Definition detailed_explanations : gmap Z string :=
  list_to_map
  [ (100, "Trying - The request is being processed, but no definitive response is available yet.");
    (180, "Ringing - The destination user agent is alerting the user.");
    (181, "Call Is Being Forwarded - The call is being redirected to another destination.");
    (182, "Queued - The request is queued and will be processed soon.");
    (183, "Session Progress - Provides progress information about the call setup.");
    (200, "OK - The request has been successfully processed and accepted.");
    (202, "Accepted - The request has been accepted for processing, but not completed yet.");
    (300, "Multiple Choices - The requested address resolves to multiple destinations.");
    (301, "Moved Permanently - The requested address is no longer valid and has a new permanent address.");
    (302, "Moved Temporarily - The requested address is temporarily unavailable and has a new temporary address.");
    (305, "Use Proxy - The client must use the specified proxy to reach the destination.");
    (380, "Alternative Service - The request cannot be fulfilled, but an alternative service is available.");
    (400, "Bad Request - The request could not be understood due to malformed syntax.");
    (401, "Unauthorized - The request requires user authentication.");
    (403, "Forbidden - The server understood the request but refuses to authorize it.");
    (404, "Not Found - The requested user could not be located on the server.");
    (405, "Method Not Allowed - The specified method is not allowed for the requested address.");
    (406, "Not Acceptable - The requested resource cannot generate content matching the client's Accept headers.");
    (407, "Proxy Authentication Required - The client must first authenticate with the proxy.");
    (408, "Request Timeout - No response was received from the destination in a timely manner.");
    (410, "Gone - The requested resource is no longer available and will not be available again.");
    (413, "Request Entity Too Large - The request payload exceeds server processing capabilities.");
    (414, "Request-URI Too Long - The request URI exceeds the server's maximum processing length.");
    (415, "Unsupported Media Type - The request includes a media type the server cannot process.");
    (416, "Unsupported URI Scheme - The request contains a URI scheme the server does not support.");
    (420, "Bad Extension - The server does not understand a specified SIP extension.");
    (421, "Extension Required - The server requires a specific extension not present in the request.");
    (423, "Interval Too Brief - The request's expiration interval is too short.");
    (480, "Temporarily Unavailable - The destination cannot be reached but might be available later.");
    (481, "Call/Transaction Does Not Exist - The call or transaction referenced does not exist.");
    (482, "Loop Detected - The request indicates a loop in the routing path.");
    (483, "Too Many Hops - Maximum number of routing hops has been exceeded.");
    (484, "Address Incomplete - The request URI is incomplete.");
    (485, "Ambiguous - The request URI is ambiguous and could not be resolved uniquely.");
    (486, "Busy Here - The destination is currently busy and cannot accept the call.");
    (487, "Request Terminated - The request was terminated by the user or network.");
    (488, "Not Acceptable Here - The request cannot be accepted by the recipient.");
    (500, "Server Internal Error - An unexpected condition prevented request fulfillment.");
    (501, "Not Implemented - The server does not support the functionality required.");
    (502, "Bad Gateway - The server received an invalid response from another server.");
    (503, "Service Unavailable - The server is temporarily overloaded or under maintenance.");
    (504, "Server Time-out - No response received from an upstream server.");
    (505, "Version Not Supported - The SIP version is not supported.");
    (513, "Message Too Large - The message exceeds the server's processing capabilities.");
    (600, "Busy Everywhere - The requested user is busy across all possible locations.");
    (603, "Decline - The user explicitly declines the call.");
    (604, "Does Not Exist Anywhere - The user cannot be found at any location.");
    (606, "Not Acceptable - The user's preferences do not allow the call to be completed.") ]%Z.

(** TeamsLog.py: subcode to sentence. *)
Definition microsoft_subcode_sentences : gmap Z string :=
  list_to_map
  [ (560486, "Network busy or user unavailable.");
    (560487, "Call cancelled or network timeout.");
    (560404, "User or number not found.");
    (560480, "Temporary service interruption.");
    (560503, "Service currently unavailable.");
    (0, "No additional details available.") ]%Z.

(** TeasmLogsV2.py and TeasmLogsV3.py: subcode to description, cause and
    resolution. *)
Record subcode_info : Type := MkSubcode {
  description : string;
  cause : string;
  resolution : string
}.

Definition microsoft_subcode_explanations : gmap Z subcode_info :=
  list_to_map
  [ (560486, MkSubcode "Network busy or user unavailable"
       "The destination user agent or network is temporarily unavailable"
       "Retry the call after a brief delay. If persistent, check network conditions.");
    (560487, MkSubcode "Call cancelled or network timeout"
       "The call was terminated due to timeout or user cancellation"
       "Check network latency and connection stability.");
    (560404, MkSubcode "User or number not found"
       "The dialed number is invalid or user does not exist"
       "Verify the phone number and user existence in the system.");
    (560480, MkSubcode "Temporary service interruption"
       "Service is temporarily unavailable"
       "Wait for service restoration and retry. Check service status.");
    (560503, MkSubcode "Service currently unavailable"
       "System overload or maintenance"
       "Wait for service restoration. If persistent, contact support.") ]%Z.

End Tables.

(** ** TeamsLog.py *)

Module TeamsLog.
Import Tables.

(** The local [simple_explanation] of [explain_sip]. *)
Definition simple_explanation (final_sip_code : Z) : string :=
  default ("Unknown call issue: " ++ Py.str_int final_sip_code)
          (sip_explanations !! final_sip_code).

Definition subcode_explanation (microsoft_subcode : Z) : string :=
  default ("Unrecognized network condition: " ++ Py.str_int microsoft_subcode)
          (microsoft_subcode_sentences !! microsoft_subcode).

Definition detailed_explanation (final_sip_code : Z) : string :=
  default "Detailed technical explanation not available."
          (detailed_explanations !! final_sip_code).

(** [explain_sip] returns [(full_simple_explanation,
    full_detailed_explanation)]. *)
Definition explain_sip (final_sip_code microsoft_subcode : Z) (sip_phrase : string)
    : string * string :=
  let full_simple_explanation :=
    simple_explanation final_sip_code ++ " " ++
    subcode_explanation microsoft_subcode in
  let full_detailed_explanation :=
    "SIP Code: " ++ Py.str_int final_sip_code ++ " | " ++
    detailed_explanation final_sip_code ++ " | Subcode: " ++
    Py.str_int microsoft_subcode ++ " | Original Phrase: " ++ sip_phrase in
  (full_simple_explanation, full_detailed_explanation).

End TeamsLog.

(** ** TeasmLogsV2.py *)

Module V2.
Import Tables.

Definition sip_categories : gmap string string :=
  list_to_map
  [ ("1xx", "Provisional"); ("2xx", "Success"); ("3xx", "Redirection");
    ("4xx", "Client Error"); ("5xx", "Server Error"); ("6xx", "Global Failure") ].

Definition error_categories : list (string * list string) :=
  [ ("Authentication", ["401"; "407"]);
    ("Routing", ["404"; "480"; "484"; "485"; "502"; "504"]);
    ("Capacity", ["486"; "503"; "513"]);
    ("Protocol", ["400"; "405"; "415"; "420"; "421"; "505"]);
    ("Network", ["408"; "483"; "500"; "502"]);
    ("Configuration", ["403"; "488"; "501"; "606"]) ].

(** [load_explanations] leaves this dict empty in this revision. *)
Definition sip_explanations : gmap Z string := ∅.

Definition mem_string (x : string) (l : list string) : bool :=
  existsb (String.eqb x) l.

Fixpoint first_category (sip_str : string) (cats : list (string * list string))
    : string :=
  match cats with
  | [] => "Uncategorized"
  | (category, codes) :: cats' =>
      if mem_string sip_str codes then category
      else first_category sip_str cats'
  end.

Definition get_error_category (sip_code : Z) : string :=
  first_category (Py.str_int sip_code) error_categories.

(** [str(final_sip_code)[0] + "xx"] *)
Definition category_prefix (final_sip_code : Z) : string :=
  String.substring 0 1 (Py.str_int final_sip_code) ++ "xx".

Record diagnostic_info : Type := MkDiagnostic {
  d_sip_code : Z;
  d_category : string;
  d_error_category : string;
  d_subcode : Z;
  d_subcode_description : string;
  d_cause : string;
  d_resolution : string;
  d_original_phrase : string
}.

Definition subcode_lookup (microsoft_subcode : Z) : subcode_info :=
  default
    (MkSubcode
       ("Unrecognized network condition: " ++ Py.str_int microsoft_subcode)
       "Unknown" "Contact support for more information")
    (microsoft_subcode_explanations !! microsoft_subcode).

(** [explain_sip]; nothing in its [try] block can raise on integers, so the
    [except] branch is not taken. *)
Definition explain_sip (final_sip_code microsoft_subcode : Z) (sip_phrase : string)
    : string * string * diagnostic_info :=
  let category :=
    default "Unknown Category" (sip_categories !! category_prefix final_sip_code) in
  let error_category := get_error_category final_sip_code in
  let simple_explanation :=
    default ("Unknown call issue: " ++ Py.str_int final_sip_code)
            (sip_explanations !! final_sip_code) in
  let subcode_info := subcode_lookup microsoft_subcode in
  let diagnostic :=
    MkDiagnostic final_sip_code category error_category microsoft_subcode
      (description subcode_info) (cause subcode_info) (resolution subcode_info)
      sip_phrase in
  let detailed_explanation :=
    "Category: " ++ category ++ " (" ++ error_category ++ ")" ++ Str.nl ++
    "SIP Code " ++ Py.str_int final_sip_code ++ ": " ++ simple_explanation ++ Str.nl ++
    "Microsoft Subcode " ++ Py.str_int microsoft_subcode ++ ": " ++
      description subcode_info ++ Str.nl ++
    "Cause: " ++ cause subcode_info ++ Str.nl ++
    "Resolution: " ++ resolution subcode_info ++ Str.nl ++
    "Original Phrase: " ++ sip_phrase in
  (simple_explanation, detailed_explanation, diagnostic).

(** *** [process_file] *)

(** A cell that the script passes to [int(...)]: the integer, or the text
    of the exception that [int] raises on it. *)
Definition int_cell : Type := Z + string.

Record row : Type := MkRow {
  final_sip_code : int_cell;
  final_microsoft_subcode : int_cell;
  final_sip_phrase : string
}.

(** The sheet as [pd.read_excel] returns it: [data.columns] and the rows;
    the three cells of a row are read only when their columns exist. *)
Record table : Type := MkTable {
  columns : list string;
  rows : list row
}.

(** What is at [input_path]. *)
Inductive input : Type :=
| Missing
| Unreadable (exception_text : string)
| Loaded (data : table).

Definition required_fields : list string :=
  ["UPN"; "Display Name"; "Final SIP code"; "Final Microsoft subcode";
   "Final SIP Phrase"].

(** [[field for field in required_fields if field not in data.columns]] *)
Definition missing_fields (data_columns : list string) : list string :=
  List.filter (fun field => negb (mem_string field data_columns)) required_fields.

Definition result : Type := string * string * diagnostic_info.

(** The loop over [data.iterrows()], stopped by the first exception. *)
Fixpoint process_rows (rs : list row) : list result + string :=
  match rs with
  | [] => inl []
  | r :: rs' =>
      match final_sip_code r, final_microsoft_subcode r with
      | inl code, inl subcode =>
          match process_rows rs' with
          | inl results => inl (explain_sip code subcode (final_sip_phrase r) :: results)
          | inr e => inr e
          end
      | inr e, _ => inr e
      | inl _, inr e => inr e
      end
  end.

(** The keys of a result dict, which are the columns of
    [pd.DataFrame(results)] when there is a result. *)
Definition result_columns : list string :=
  ["Simple_Explanation"; "Detailed_Explanation"; "sip_code"; "category";
   "error_category"; "subcode"; "subcode_description"; "cause"; "resolution";
   "original_phrase"].

(** The column labels of [pd.concat([data, results_df], axis=1)]: those of
    the sheet, then those of the results; [pd.DataFrame([])] has no
    column. *)
Definition enhanced_columns (data : table) (results : list result)
    : list string :=
  (columns data ++
   match results with
   | [] => []
   | _ :: _ => result_columns
   end)%list.

Definition count_label (label : string) (labels : list string) : nat :=
  length (List.filter (String.eqb label) labels).

(** A [groupby] key has to name exactly one column: with none pandas raises
    [KeyError(label)], with several [ValueError]; the result is the text of
    the exception, if any. *)
Definition grouper (label : string) (labels : list string) : option string :=
  match count_label label labels with
  | 0 => Some ("'" ++ label ++ "'")
  | 1 => None
  | _ => Some ("Grouper for '" ++ label ++ "' not 1-dimensional")
  end.

(** [enhanced_data.groupby(['error_category', 'Final SIP code'])] *)
Definition groupby_error (labels : list string) : option string :=
  match grouper "error_category" labels with
  | Some e => Some e
  | None => grouper "Final SIP code" labels
  end.

(** The outcome: the returned pair and the results written to
    [output_path], if the writer was reached. *)
Record outcome : Type := MkOutcome {
  success : bool;
  message : string;
  written : option (list result)
}.

(** The workbook at [output_path] is taken to be writable: once [groupby]
    has passed, the two sheets are written and the call succeeds. *)
Definition process_file (inp : input) (output_path : string) : outcome :=
  match inp with
  | Missing => MkOutcome false "Input file does not exist" None
  | Unreadable e => MkOutcome false ("Error processing file: " ++ e) None
  | Loaded data =>
      match missing_fields (columns data) with
      | (_ :: _) as missing =>
          MkOutcome false
            ("Missing required fields: " ++ Str.join ", " missing) None
      | [] =>
          match process_rows (rows data) with
          | inl results =>
              match groupby_error (enhanced_columns data results) with
              | Some e => MkOutcome false ("Error processing file: " ++ e) None
              | None =>
                  MkOutcome true
                    ("Successfully processed file. Output saved to: "
                     ++ output_path)
                    (Some results)
              end
          | inr e => MkOutcome false ("Error processing file: " ++ e) None
          end
      end
  end.

End V2.

(** ** Python floats

    A [float] is an IEEE 754 binary64 value, in the specification format of
    the Standard Library ([spec_float], 53 bits of precision). *)

Module PyFloat.

Definition prec : Z := 53.
Definition emax : Z := 1024.

Definition float : Type := spec_float.

Definition zero : float := S754_zero false.

(** [float(z)] for an integer below [2^53] in absolute value (exact). *)
Definition of_int (z : Z) : float := binary_normalize prec emax z 0 false.

Definition fmul (x y : float) : float := SFmul prec emax x y.
Definition fdiv (x y : float) : float := SFdiv prec emax x y.

(** [a / b] on integers: the float nearest to the exact quotient, [None]
    for [ZeroDivisionError].  The quotient is taken in lowest terms, whose
    numerator and denominator convert exactly when they are below [2^53]. *)
Definition truediv (a b : Z) : option float :=
  if (b =? 0)%Z then None
  else
    let q := Qred (Qmake (Z.sgn b * a) (Z.to_pos (Z.abs b))) in
    Some (fdiv (of_int (Qnum q)) (of_int (Zpos (Qden q)))).

(** The integer nearest to [n / d], ties to the even one ([d > 0]). *)
Definition round_half_even (n : Z) (d : positive) : Z :=
  let f := (n / Zpos d)%Z in
  let r := (n mod Zpos d)%Z in
  match (2 * r ?= Zpos d)%Z with
  | Lt => f
  | Gt => (f + 1)%Z
  | Eq => if Z.even f then f else (f + 1)%Z
  end.

(** [round(x, 2)]: the exact value of [x] is rounded to hundredths, ties to
    even, and the float nearest to that decimal is returned. *)
Definition round2 (x : float) : float :=
  match x with
  | S754_finite s m e =>
      let v := cond_Zopp s (Zpos m) in
      let h :=
        match e with
        | Zneg p => round_half_even (v * 100) (2 ^ p)%positive
        | _ => (v * 100 * 2 ^ e)%Z
        end in
      if (h =? 0)%Z then S754_zero s else fdiv (of_int h) (of_int 100)
  | _ => x
  end.

End PyFloat.

(** ** TeasmLogsV3.py *)

Module CallStatus.
Definition SUCCESS : string := "SUCCESS".
Definition FAILED : string := "FAILED".
Definition WARNING : string := "WARNING".
Definition INFO : string := "INFO".

Definition colors : gmap string string :=
  list_to_map
  [ (SUCCESS, "90EE90"); (FAILED, "FFB6C1"); (WARNING, "FFD700");
    (INFO, "87CEEB") ].

Definition get_status_color (status : string) : string :=
  default "FFFFFF" (colors !! status).
End CallStatus.

Module V3.
Import Tables.

Definition determine_call_status (sip_code : Z) : string :=
  let s := Py.str_int sip_code in
  if Str.startswith s "2" then CallStatus.SUCCESS
  else if Str.startswith s "1" then CallStatus.INFO
  else if Str.startswith s "4" || Str.startswith s "5" || Str.startswith s "6"
       then CallStatus.FAILED
  else if Str.startswith s "3" then CallStatus.WARNING
  else CallStatus.INFO.

Record diagnostic : Type := MkDiagnostic {
  Technical_Details : string;
  Microsoft_Subcode : string;
  Cause : string;
  Resolution : string
}.

Definition explain_sip (sip_code microsoft_subcode : Z) (sip_phrase : string)
    : string * string * diagnostic :=
  let simple_exp := default "Unknown SIP code" (sip_explanations !! sip_code) in
  let detailed_exp :=
    default "No detailed explanation available" (detailed_explanations !! sip_code) in
  let subcode_info :=
    default
      (MkSubcode "Unknown subcode" "No information available"
                 "Contact support for more information")
      (microsoft_subcode_explanations !! microsoft_subcode) in
  let diag :=
    MkDiagnostic
      ("SIP " ++ Py.str_int sip_code ++ " - " ++ sip_phrase)
      (Py.str_int microsoft_subcode ++ " - " ++ description subcode_info)
      (cause subcode_info) (resolution subcode_info) in
  (simple_exp, detailed_exp, diag).

(** A row of the sheet: the duration cell ([None] for a blank cell, which
    pandas reads as NaN) and the two integer code cells with the phrase. *)
Record row : Type := MkRow {
  duration : option Q;
  final_sip_code : Z;
  final_microsoft_subcode : Z;
  final_sip_phrase : string
}.

(** [duration > 0]; a comparison with NaN is false. *)
Definition positive_duration (d : option Q) : bool :=
  match d with
  | Some q => match (0 ?= q)%Q with Lt => true | _ => false end
  | None => false
  end.

(** The five counters of [process_file]. *)
Record counters : Type := MkCounters {
  total_attempted_calls : Z;
  successful_calls : Z;
  failed_calls : Z;
  warning_calls : Z;
  info_calls : Z
}.

Definition no_calls : counters := MkCounters 0 0 0 0 0.

(** The counting part of one iteration of [for _, row in data.iterrows()]. *)
Definition count_row (c : counters) (r : row) : counters :=
  let status := determine_call_status (final_sip_code r) in
  if positive_duration (duration r) then
    let c := MkCounters (total_attempted_calls c + 1) (successful_calls c)
               (failed_calls c) (warning_calls c) (info_calls c) in
    if String.eqb status CallStatus.SUCCESS then
      MkCounters (total_attempted_calls c) (successful_calls c + 1)
        (failed_calls c) (warning_calls c) (info_calls c)
    else if String.eqb status CallStatus.FAILED then
      MkCounters (total_attempted_calls c) (successful_calls c)
        (failed_calls c + 1) (warning_calls c) (info_calls c)
    else if String.eqb status CallStatus.WARNING then
      MkCounters (total_attempted_calls c) (successful_calls c)
        (failed_calls c) (warning_calls c + 1) (info_calls c)
    else if String.eqb status CallStatus.INFO then
      MkCounters (total_attempted_calls c) (successful_calls c)
        (failed_calls c) (warning_calls c) (info_calls c + 1)
    else c
  else c.

Definition count_rows (rs : list row) : counters :=
  fold_left count_row rs no_calls.

(** The entry ['Success Rate (%)'] of [stats]; [None] if the expression
    raised [ZeroDivisionError]. *)
Definition success_rate_of (c : counters) : option PyFloat.float :=
  if (total_attempted_calls c >? 0)%Z then
    match PyFloat.truediv (successful_calls c) (total_attempted_calls c) with
    | Some q => Some (PyFloat.round2 (PyFloat.fmul q (PyFloat.of_int 100)))
    | None => None
    end
  else Some PyFloat.zero.

Definition success_rate (rs : list row) : option PyFloat.float :=
  success_rate_of (count_rows rs).

(** *** The sheet behind the rows

    The loop reads the duration with [row.get('Duration (seconds)', 0)],
    which is 0 in every row of a sheet without that column; [stats] then
    reads the column itself, [data['Duration (seconds)'].mean()], before it
    comes to the success rate. *)
Record sheet : Type := MkSheet {
  has_duration_column : bool;
  sheet_rows : list row
}.

Definition row_get_duration (s : sheet) (r : row) : option Q :=
  if has_duration_column s then duration r else Some 0%Q.

(** The rows as the loop sees them. *)
Definition rows_read (s : sheet) : list row :=
  map (fun r => MkRow (row_get_duration s r) (final_sip_code r)
                  (final_microsoft_subcode r) (final_sip_phrase r))
      (sheet_rows s).

(** The entry ['Success Rate (%)'] of [stats], or the text of the exception
    that ends the [try] block before [stats] is built: [KeyError] for the
    missing column, [ZeroDivisionError] from the rate. *)
Definition stats_success_rate (s : sheet) : PyFloat.float + string :=
  let c := count_rows (rows_read s) in
  if has_duration_column s then
    match success_rate_of c with
    | Some x => inl x
    | None => inr "division by zero"
    end
  else inr "'Duration (seconds)'".

(** [format_excel_output]: the width of a header column,
    [max(12, min(30, len(str(value)) + 2))]. *)
Definition column_width (value : string) : nat :=
  Nat.max 12 (Nat.min 30 (String.length value + 2)).

(** [format_excel_output]: [f"Table_{sheet_name.replace(' ', '_')}"] *)
Definition table_name (sheet_name : string) : string :=
  "Table_" ++ Str.replace_char " " "_" sheet_name.

End V3.

(** ** Reference definitions used to state the properties *)

Module Ref.

(** The text begins with [HH:MM:SS.mmm]: two digits, a colon, two digits,
    a colon, two digits, a dot and three digits. *)
Definition timestamp_led (line : string) : bool :=
  match line with
  | String h1 (String h2 (String c1 (String m1 (String m2 (String c2
      (String s1 (String s2 (String d (String f1 (String f2 (String f3 _)))))))))))
    =>
      Chars.is_digit h1 && Chars.is_digit h2 && Ascii.eqb ":" c1
      && Chars.is_digit m1 && Chars.is_digit m2 && Ascii.eqb ":" c2
      && Chars.is_digit s1 && Chars.is_digit s2 && Ascii.eqb "." d
      && Chars.is_digit f1 && Chars.is_digit f2 && Chars.is_digit f3
  | _ => false
  end.

(** The leading decimal digit of a positive number: [d] with
    [d * 10^k <= n < (d + 1) * 10^k]. *)
Definition leading_digit (n d : N) : Prop :=
  (1 <= d <= 9 /\ exists k, d * 10 ^ k <= n < (d + 1) * 10 ^ k)%N.

(** The status the specification gives to a leading digit. *)
Definition status_of_digit (d : N) : string :=
  match d with
  | 2%N => CallStatus.SUCCESS
  | 1%N => CallStatus.INFO
  | 4%N | 5%N | 6%N => CallStatus.FAILED
  | 3%N => CallStatus.WARNING
  | _ => CallStatus.INFO
  end.

(** A message block as the lines of the log give it: a line that begins
    with a timestamp, then lines that do not. *)
Record group : Type := MkGroup { head_line : string; more_lines : list string }.

Definition group_lines (g : group) : list string := head_line g :: more_lines g.

Definition well_formed (g : group) : Prop :=
  timestamp_led (head_line g) = true /\
  Forall (fun l => timestamp_led l = false) (more_lines g).

Definition block_of (g : group) : string := Str.join Str.nl (group_lines g).

(** What the blocks are for lines [pre ++ g1 ++ ... ++ gn], where [pre]
    holds the lines before the first timestamp-led line. *)
Definition blocks_of (pre : list string) (groups : list group) : list string :=
  match pre with
  | [] => []
  | _ :: _ => [Str.join Str.nl pre]
  end ++ map block_of groups.

(** Every character of [s] is white space. *)
Fixpoint all_space (s : string) : bool :=
  match s with
  | "" => true
  | String c s' => Chars.is_space c && all_space s'
  end.

(** The counts that the success rate is made of. *)
Definition status_is (status : string) (r : V3.row) : bool :=
  String.eqb (V3.determine_call_status (V3.final_sip_code r)) status.

Definition is_attempted (r : V3.row) : bool :=
  V3.positive_duration (V3.duration r).

Definition attempted (rs : list V3.row) : nat :=
  length (List.filter is_attempted rs).

Definition successful (rs : list V3.row) : nat :=
  length (List.filter
            (fun r => is_attempted r && status_is CallStatus.SUCCESS r) rs).

Definition count_status (status : string) (rs : list V3.row) : nat :=
  length (List.filter (status_is status) rs).

(** [successful / attempted * 100] rounded to two decimals, in floats. *)
Definition rate (successful attempted : Z) : option PyFloat.float :=
  match PyFloat.truediv successful attempted with
  | Some q => Some (PyFloat.round2 (PyFloat.fmul q (PyFloat.of_int 100)))
  | None => None
  end.

(** [sub] occurs in [s]. *)
Definition occurs (sub s : string) : Prop :=
  exists before after, s = before ++ sub ++ after.

(** The direction [d] that the markers of [line] decide, [neither] being
    the value for a line with no marker; the incoming marker wins. *)
Definition direction_spec (line neither d : string) : Prop :=
  (occurs "Incoming SIP Message" line /\ d = "Incoming") \/
  (~ occurs "Incoming SIP Message" line /\
   occurs "Outgoing SIP Message" line /\ d = "Outgoing") \/
  (~ occurs "Incoming SIP Message" line /\
   ~ occurs "Outgoing SIP Message" line /\ d = neither).

(** The field keys of the record built by [SIP.parse_log_line]. *)
Definition field_keys : gset string :=
  {[ "timestamp"; "ip"; "sid"; "message_type"; "call_id"; "from_uri";
     "to_uri"; "user_agent"; "direction"; "status_code" ]}.

(** The twelve field keys that the specification lists. *)
Definition spec_field_keys : gset string :=
  {[ "timestamp"; "ip"; "remote_ip"; "sid"; "message_type"; "status_code";
     "call_id"; "from_uri"; "to_uri"; "user_agent"; "ip_group"; "direction" ]}.

End Ref.

(** ** Further reference definitions *)

Module Facts.

(** A line on which [SIP2.step] appends a record. *)
Definition emits (line : string) : bool :=
  Ref.timestamp_led line && SIP2.is_call_end line.

(** Every character of [s] is a decimal digit. *)
Fixpoint all_digits (s : string) : bool :=
  match s with
  | "" => true
  | String c s' => Chars.is_digit c && all_digits s'
  end.

(** The number a string of decimal digits denotes, after [acc]. *)
Fixpoint value_from (acc : N) (s : string) : N :=
  match s with
  | "" => acc
  | String c s' => value_from (10 * acc + (Chars.code c - 48))%N s'
  end.

(** [int(s)] for the output of [str]. *)
Definition int_of (s : string) : Z :=
  match s with
  | String "-" s' => (- Z.of_N (value_from 0 s'))%Z
  | _ => Z.of_N (value_from 0 s)
  end.

(** The error categories of TeasmLogsV2.py by integer code, in the order
    in which [get_error_category] tries them. *)
Definition error_category_codes : list (string * list Z) :=
  [ ("Authentication", [401; 407]);
    ("Routing", [404; 480; 484; 485; 502; 504]);
    ("Capacity", [486; 503; 513]);
    ("Protocol", [400; 405; 415; 420; 421; 505]);
    ("Network", [408; 483; 500; 502]);
    ("Configuration", [403; 488; 501; 606]) ]%Z.

Fixpoint category_of (code : Z) (cats : list (string * list Z)) : string :=
  match cats with
  | [] => "Uncategorized"
  | (category, codes) :: cats' =>
      if existsb (Z.eqb code) codes then category
      else category_of code cats'
  end.

(** The category name of a leading digit in TeasmLogsV2.py. *)
Definition category_of_digit (d : N) : string :=
  match d with
  | 1%N => "Provisional"
  | 2%N => "Success"
  | 3%N => "Redirection"
  | 4%N => "Client Error"
  | 5%N => "Server Error"
  | 6%N => "Global Failure"
  | _ => "Unknown Category"
  end.

(** All the cells of the rows are integers. *)
Definition integer_row (r : V2.row) : Prop :=
  (exists code, V2.final_sip_code r = inl code) /\
  (exists subcode, V2.final_microsoft_subcode r = inl subcode).

(** The result computed for a row of integers. *)
Definition result_of (r : V2.row) : option V2.result :=
  match V2.final_sip_code r, V2.final_microsoft_subcode r with
  | inl code, inl subcode =>
      Some (V2.explain_sip code subcode (V2.final_sip_phrase r))
  | _, _ => None
  end.

(** The exception text of the first cell of a row that is not an integer:
    the code cell is converted before the subcode cell. *)
Definition row_error (r : V2.row) : option string :=
  match V2.final_sip_code r, V2.final_microsoft_subcode r with
  | inr e, _ => Some e
  | inl _, inr e => Some e
  | inl _, inl _ => None
  end.

End Facts.

(** ** The success rate as the specification words it *)

Module Rate.

(** The duration is a number greater than zero; a blank cell is none. *)
Definition above_zero (d : option Q) : bool :=
  match d with
  | Some q => (0 <? Qnum q)%Z
  | None => false
  end.

(** An attempted record, and a successful one. *)
Definition attempted_row (r : V3.row) : bool := above_zero (V3.duration r).

Definition classified (status : string) (r : V3.row) : bool :=
  String.eqb (V3.determine_call_status (V3.final_sip_code r)) status.

Definition successful_row (r : V3.row) : bool :=
  attempted_row r && classified CallStatus.SUCCESS r.

Definition attempted (rs : list V3.row) : nat :=
  length (List.filter attempted_row rs).

Definition successful (rs : list V3.row) : nat :=
  length (List.filter successful_row rs).

(** The number of records with the given status. *)
Definition with_status (status : string) (rs : list V3.row) : nat :=
  length (List.filter (classified status) rs).

(** The real number that a float stands for, [(-1)^s * m * 2^e]; 0 for
    the values that stand for none. *)
Definition value (x : PyFloat.float) : Q :=
  match x with
  | S754_finite s m e => (inject_Z (cond_Zopp s (Zpos m)) * 2 ^ e)%Q
  | _ => 0%Q
  end.

(** [h] is the integer nearest to [v], the even one when [v] lies half-way
    between two integers. *)
Definition nearest_even (v : Q) (h : Z) : Prop :=
  (Qabs (v - inject_Z h) <= 1 # 2)%Q /\
  ((Qabs (v - inject_Z h) == 1 # 2)%Q -> Z.even h = true).

(** The float written [h / 100]: the quotient of the two integers rounded
    to the nearest float, and the zero of the given sign for [h = 0]. *)
Definition hundredths (negative : bool) (h : Z) : PyFloat.float :=
  if (h =? 0)%Z then S754_zero negative
  else PyFloat.fdiv (PyFloat.of_int h) (PyFloat.of_int 100).

(** [r] is [x] rounded to two decimal places: [h / 100] for the integer
    [h] nearest to [100 * x]; an infinity or a NaN is left as it is. *)
Definition rounded_to_hundredths (x r : PyFloat.float) : Prop :=
  match x with
  | S754_zero s | S754_finite s _ _ =>
      exists h, nearest_even (100 * value x)%Q h /\ r = hundredths s h
  | _ => r = x
  end.

End Rate.

(** * Properties *)

(** ** The matcher on the timestamp pattern *)

Section TimestampPattern.
Import Re.

Lemma or_else_none_r (a : option rmatch) : or_else a None = a.
Proof. by destruct a. Qed.

(** A greedy repetition of exactly [n] characters takes [n] characters of
    the class or fails. *)
Lemma rep_exact_step p n pos c s k :
  rep p true (S n) (Some (S n)) pos (String c s) k =
  if p c then rep p true n (Some n) (S pos) s k else None.
Proof.
  cbn [rep pred one_less may_repeat]. rewrite andb_true_r.
  destruct (p c); cbn [or_else]; [apply or_else_none_r | reflexivity].
Qed.

Lemma rep_exact_nil p n pos k :
  rep p true (S n) (Some (S n)) pos "" k = None.
Proof. reflexivity. Qed.

Lemma rep_exact_done p pos s k : rep p true 0 (Some 0) pos s k = k pos s.
Proof. destruct s; cbn [rep may_repeat]; by rewrite ?andb_false_r. Qed.

Ltac crunch :=
  repeat first
    [ reflexivity
    | rewrite rep_exact_step
    | rewrite rep_exact_done
    | rewrite rep_exact_nil
    | progress cbn [exec Str.strip_prefix andb Ref.timestamp_led Str.drop
                    String.length Nat.add]
    | match goal with
      | |- (if Chars.is_digit ?c then _ else _) = _ => destruct (Chars.is_digit c)
      | |- (if Ascii.eqb ?a ?b then _ else _) = _ => destruct (Ascii.eqb a b)
      | |- match (if Ascii.eqb ?a ?b then _ else _) with _ => _ end = _ =>
          destruct (Ascii.eqb a b)
      end
    | (f_equal; lia) ].

Ltac split_chars n s :=
  lazymatch n with
  | O => crunch
  | S ?n' =>
      let c := fresh "c" in
      let s' := fresh "s" in
      destruct s as [|c s']; [crunch | split_chars n' s']
  end.

(** [\d{2}:\d{2}:\d{2}\.\d{3}] matches at the head of a text exactly when
    the text is timestamp-led, and then consumes twelve characters. *)
Lemma exec_hms_millis pos line cap k :
  exec hms_millis pos line cap k =
  if Ref.timestamp_led line then k (12 + pos) (Str.drop 12 line) cap else None.
Proof.
  unfold hms_millis, digits. cbn [seq].
  split_chars 12 line.
Qed.

Lemma starts_block_spec line : SIP.starts_block line = Ref.timestamp_led line.
Proof.
  unfold SIP.starts_block, re_match, match_at, SIP.block_start_re.
  cbn [exec]. rewrite exec_hms_millis. by destruct (Ref.timestamp_led line).
Qed.

Lemma timestamp_match_spec line :
  re_match SIP2.timestamp_re line =
  if Ref.timestamp_led line
  then Some (MkMatch 12 (Some (String.substring 0 12 line)))
  else None.
Proof.
  unfold re_match, match_at, SIP2.timestamp_re. cbn [exec].
  rewrite exec_hms_millis. by destruct (Ref.timestamp_led line).
Qed.

End TimestampPattern.

(** ** Substrings *)

Section Substrings.

Lemma append_nil_l (s : string) : "" ++ s = s.
Proof. reflexivity. Qed.

Lemma append_cons (c : ascii) (a b : string) :
  String c a ++ b = String c (a ++ b).
Proof. reflexivity. Qed.

Lemma append_nil_r (s : string) : s ++ "" = s.
Proof. induction s as [|c s IH]; [done|]. by rewrite append_cons, IH. Qed.

Lemma append_assoc (a b c : string) : (a ++ b) ++ c = a ++ (b ++ c).
Proof.
  induction a as [|x a IH]; [done|]. by rewrite !append_cons, IH.
Qed.

Lemma strip_prefix_spec p s r : Str.strip_prefix p s = Some r <-> s = p ++ r.
Proof.
  revert s. induction p as [|a p IH]; intros s; cbn [Str.strip_prefix].
  - rewrite append_nil_l. split; congruence.
  - rewrite append_cons. destruct s as [|b s]; [split; discriminate|].
    destruct (Ascii.eqb_spec a b) as [->|Hne].
    + rewrite IH. split; congruence.
    + split; [discriminate | intros [=]; congruence].
Qed.

Lemma startswith_spec s p : Str.startswith s p = true <-> exists r, s = p ++ r.
Proof.
  unfold Str.startswith. destruct (Str.strip_prefix p s) as [r|] eqn:E.
  - apply strip_prefix_spec in E. split; eauto.
  - split; [discriminate|]. intros [r Hr].
    apply strip_prefix_spec in Hr. congruence.
Qed.

(** Python's [sub in s] is the occurrence of [sub] in [s]. *)
Lemma contains_spec sub s : Str.contains sub s = true <-> Ref.occurs sub s.
Proof.
  unfold Ref.occurs. induction s as [|c s IH]; cbn [Str.contains].
  - rewrite orb_false_r, startswith_spec. split.
    + intros [r Hr]. by exists "", r.
    + intros (b & a & H). destruct b; [by exists a | discriminate].
  - rewrite orb_true_iff, startswith_spec, IH. split.
    + intros [[r Hr] | (b & a & H)].
      * by exists "", r.
      * exists (String c b), a. by rewrite append_cons, H.
    + intros (b & a & H). destruct b as [|c' b].
      * left. by exists a.
      * right. rewrite append_cons in H. injection H as -> ->. by exists b, a.
Qed.

Lemma occurs_refl s : Ref.occurs s s.
Proof. exists "", "". by rewrite append_nil_l, append_nil_r. Qed.

Lemma occurs_app_l sub a b : Ref.occurs sub a -> Ref.occurs sub (a ++ b).
Proof.
  intros (x & y & ->). exists x, (y ++ b). by rewrite !append_assoc.
Qed.

Lemma occurs_app_r sub a b : Ref.occurs sub b -> Ref.occurs sub (a ++ b).
Proof.
  intros (x & y & ->). exists (a ++ x), y. by rewrite !append_assoc.
Qed.

(** Every element of a joined list occurs in the result. *)
Lemma occurs_join sep x l : In x l -> Ref.occurs x (Str.join sep l).
Proof.
  induction l as [|y l IH]; [intros []|].
  intros [-> | Hin].
  - destruct l as [|z l]; cbn [Str.join]; [apply occurs_refl|].
    apply occurs_app_l, occurs_refl.
  - destruct l as [|z l]; [destruct Hin|]. cbn [Str.join].
    apply occurs_app_r, occurs_app_r, IH, Hin.
Qed.

End Substrings.

(** ** The session correlator (SIP2.py) *)

Section Correlator.
Import SIP2.

Lemma step_no_timestamp st line :
  Ref.timestamp_led line = false -> step st line = st.
Proof.
  intros H. unfold step. by rewrite timestamp_match_spec, H.
Qed.

Lemma step_timestamp st line :
  Ref.timestamp_led line = true ->
  step st line =
  let session := update_session line (current_session st) in
  if is_call_end line
  then MkState ∅
         (log_entries st ++ [make_entry (String.substring 0 12 line) line session])
  else MkState session (log_entries st).
Proof.
  intros H. unfold step. by rewrite timestamp_match_spec, H.
Qed.

Lemma is_call_end_spec line :
  is_call_end line = true <->
  Ref.occurs "Call End" line \/ Ref.occurs "Released" line.
Proof.
  unfold is_call_end. by rewrite orb_true_iff, !contains_spec.
Qed.

End Correlator.

(** C1 (as stated) fails: a line that carries a call-end marker but no
    leading timestamp is skipped by the guard [if timestamp_match]; nothing
    is appended and the session context is kept, not emptied. *)
Lemma C1_marker_without_timestamp :
  let ctx : gmap string string := {[ "caller" := "a@x" ]} in
  let line := "Call End Reason: Busy [SID=S1]" in
  Ref.occurs "Call End" line /\
  SIP2.step (SIP2.MkState ctx []) line = SIP2.MkState ctx [] /\
  ctx <> ∅.
Proof.
  cbn zeta. split; [|split].
  - apply contains_spec. by vm_compute.
  - apply step_no_timestamp. by vm_compute.
  - intros H. apply (f_equal (fun m : gmap string string => m !! "caller")) in H.
    by vm_compute in H.
Qed.

(** C1 (amended): for every line that begins with the HH:MM:SS.mmm
    timestamp and contains "Call End" or "Released", the step appends
    exactly one record: its end time is the timestamp, its sid, ip group,
    direction and remote ip are read from the line, its caller, callee and
    duration come from the session context as updated by this line, its
    termination reason is the reason recorded in that context or "Normal"
    when none is recorded; afterwards the session context is empty. *)
Theorem C1_call_end_emits_one_record (st : SIP2.state) (line : string) :
  Ref.timestamp_led line = true ->
  Ref.occurs "Call End" line \/ Ref.occurs "Released" line ->
  let session := SIP2.update_session line (SIP2.current_session st) in
  let entry :=
    {| SIP2.call_end_time := String.substring 0 12 line;
       SIP2.session_id := SIP2.line_sid line;
       SIP2.ip_group := SIP2.line_ip_group line;
       SIP2.caller := default "" (session !! "caller");
       SIP2.callee := default "" (session !! "callee");
       SIP2.direction := SIP2.line_direction line;
       SIP2.remote_ip := SIP2.line_remote_ip line;
       SIP2.termination_reason :=
         match session !! "termination_reason" with
         | Some reason => reason
         | None => "Normal"
         end;
       SIP2.duration := default "" (session !! "duration") |} in
  SIP2.log_entries (SIP2.step st line) = (SIP2.log_entries st ++ [entry])%list /\
  SIP2.current_session (SIP2.step st line) = ∅.
Proof.
  intros Hts Hend. apply is_call_end_spec in Hend.
  rewrite step_timestamp by done. cbn zeta. rewrite Hend. by split.
Qed.

Lemma C1_call_end_emits_one_record_witness :
  let st := SIP2.MkState {[ "caller" := "a@x" ]} [] in
  let line := "10:00:05.000 Released [SID=S1]" in
  length (SIP2.log_entries (SIP2.step st line)) = 1 /\
  SIP2.current_session (SIP2.step st line) = ∅.
Proof.
  cbn zeta.
  destruct (C1_call_end_emits_one_record
              (SIP2.MkState {[ "caller" := "a@x" ]} [])
              "10:00:05.000 Released [SID=S1]") as [Hlog Hctx].
  - by vm_compute.
  - right. apply contains_spec. by vm_compute.
  - split; [by rewrite Hlog | exact Hctx].
Defined.

(** C9: the three-line scenario yields exactly one call record, with
    session id "S1", caller "a@x" and callee "b@x". *)
Theorem C9_scenario_one_record :
  exists entry,
    SIP2.parse_log_file [] scenario_text = [entry] /\
    SIP2.session_id entry = "S1" /\
    SIP2.caller entry = "a@x" /\
    SIP2.callee entry = "b@x".
Proof.
  eexists. split; [by vm_compute|]. by vm_compute.
Qed.

(** C10: on a line that does not begin with the HH:MM:SS.mmm timestamp the
    step changes nothing, neither the session context nor the entries,
    whatever else the line contains. *)
Theorem C10_no_timestamp_no_effect (st : SIP2.state) (line : string) :
  Ref.timestamp_led line = false ->
  SIP2.step st line = st.
Proof. apply step_no_timestamp. Qed.

Lemma C10_no_timestamp_no_effect_witness :
  let st := SIP2.MkState {[ "caller" := "a@x" ]} [] in
  let line := "FROM: <c@x> TO: <d@x> Call End Reason: Busy" in
  Ref.timestamp_led line = false /\ SIP2.step st line = st.
Proof.
  cbn zeta. split; [by vm_compute|].
  apply (C10_no_timestamp_no_effect
           (SIP2.MkState {[ "caller" := "a@x" ]} [])
           "FROM: <c@x> TO: <d@x> Call End Reason: Busy").
  by vm_compute.
Defined.

(** ** Field extraction (SIP.py) *)

Section Extraction.
Import SIP.

Lemma direction_choice line neither :
  Ref.direction_spec line neither
    (if Str.contains "Incoming SIP Message" line then "Incoming"
     else if Str.contains "Outgoing SIP Message" line then "Outgoing"
     else neither).
Proof.
  unfold Ref.direction_spec.
  destruct (Str.contains "Incoming SIP Message" line) eqn:Hin.
  { left. split; [by apply contains_spec | done]. }
  assert (~ Ref.occurs "Incoming SIP Message" line) as Hnin.
  { rewrite <- contains_spec. congruence. }
  destruct (Str.contains "Outgoing SIP Message" line) eqn:Hout.
  { right; left. split; [done|]. split; [by apply contains_spec | done]. }
  right; right. split; [done|]. split; [|done].
  rewrite <- contains_spec. congruence.
Qed.

Lemma parse_log_line_direction line :
  parse_log_line line !! "direction" = Some (direction_of line).
Proof.
  unfold parse_log_line. rewrite lookup_insert_ne by done.
  by rewrite lookup_insert_eq.
Qed.

Lemma parse_log_line_status line :
  parse_log_line line !! "status_code" =
  Some (group1_or_empty (Re.re_search status_re line)).
Proof. unfold parse_log_line. by rewrite lookup_insert_eq. Qed.

Lemma parse_log_line_pattern line key pattern :
  In (key, pattern) patterns ->
  parse_log_line line !! key =
  Some (group1_or_empty (Re.re_search pattern line)).
Proof.
  unfold parse_log_line, extract_patterns, patterns.
  cbn [fold_left fst snd In].
  intros H. repeat (destruct H as [[= <- <-] | H]; [by simplify_map_eq|]).
  destruct H.
Qed.

Lemma parse_log_line_dom line : dom (parse_log_line line) = Ref.field_keys.
Proof.
  unfold parse_log_line, extract_patterns, patterns.
  cbn [fold_left fst snd]. rewrite !dom_insert_L, dom_empty_L.
  unfold Ref.field_keys. set_solver.
Qed.

End Extraction.

(** C4 (as stated) fails: the record of [parse_log_line] has neither a
    [remote_ip] nor an [ip_group] key, also for a block that holds two
    addresses and an IP group, so its keys are not the twelve listed. *)
Lemma C4_no_remote_ip_no_ip_group :
  let entry :=
    SIP.parse_log_line
      "10:00:00.000 10.0.0.1 10.0.0.2 IPG_Teams Incoming SIP Message" in
  entry !! "remote_ip" = None /\
  entry !! "ip_group" = None /\
  dom entry <> Ref.spec_field_keys.
Proof.
  cbn zeta. split; [by vm_compute|]. split; [by vm_compute|].
  rewrite parse_log_line_dom. intros H.
  assert ("remote_ip" ∈ Ref.field_keys) as Hin.
  { rewrite H. unfold Ref.spec_field_keys. set_solver. }
  unfold Ref.field_keys in Hin. set_solver.
Qed.

(** C4 (amended): field extraction is total; for every block the record
    has exactly the ten keys timestamp, ip, sid, message_type, call_id,
    from_uri, to_uri, user_agent, direction and status_code (no remote_ip
    and no ip_group), each mapped to the text its pattern extracts or to
    the empty string when the pattern does not match. *)
Theorem C4_extraction_total (line : string) :
  dom (SIP.parse_log_line line) = Ref.field_keys /\
  size (SIP.parse_log_line line) = 10 /\
  (forall key pattern, In (key, pattern) SIP.patterns ->
     SIP.parse_log_line line !! key =
     Some (match Re.re_search pattern line with
           | Some m => Re.group1 m
           | None => ""
           end)) /\
  SIP.parse_log_line line !! "direction" = Some (SIP.direction_of line) /\
  SIP.parse_log_line line !! "status_code" =
    Some (match Re.re_search SIP.status_re line with
          | Some m => Re.group1 m
          | None => ""
          end).
Proof.
  split; [apply parse_log_line_dom|].
  split; [by rewrite <- size_dom, parse_log_line_dom|].
  split; [apply parse_log_line_pattern|].
  split; [apply parse_log_line_direction | apply parse_log_line_status].
Qed.

(** C6 (as stated) fails: for a call-end line with neither marker the
    direction of the record appended by SIP2.py is the empty string, not
    "Internal". *)
Lemma C6_call_record_direction_empty :
  let line := "10:00:05.000 Call End [SID=S1]" in
  ~ Ref.occurs "Incoming SIP Message" line /\
  ~ Ref.occurs "Outgoing SIP Message" line /\
  map SIP2.direction (SIP2.log_entries (SIP2.step (SIP2.MkState ∅ []) line))
    = [""] /\
  "" <> "Internal".
Proof.
  cbn zeta. rewrite <- !contains_spec.
  split; [by vm_compute|]. split; [by vm_compute|]. split; by vm_compute.
Qed.

(** C6 (amended): the direction extracted from a block by SIP.py is
    "Incoming" when the block contains the incoming marker, otherwise
    "Outgoing" when it contains the outgoing marker, otherwise "Internal";
    the direction of a call record appended by SIP2.py follows the same
    markers but is the empty string when the line has neither. *)
Theorem C6_direction_three_valued (line : string) :
  (exists d, SIP.parse_log_line line !! "direction" = Some d /\
             Ref.direction_spec line "Internal" d) /\
  (forall st, Ref.timestamp_led line = true ->
     Ref.occurs "Call End" line \/ Ref.occurs "Released" line ->
     exists entry,
       SIP2.log_entries (SIP2.step st line)
         = (SIP2.log_entries st ++ [entry])%list /\
       Ref.direction_spec line "" (SIP2.direction entry)).
Proof.
  split.
  - exists (SIP.direction_of line). split; [apply parse_log_line_direction|].
    apply direction_choice.
  - intros st Hts Hend. apply is_call_end_spec in Hend.
    rewrite step_timestamp by done. cbn zeta. rewrite Hend.
    eexists. split; [reflexivity|]. apply direction_choice.
Qed.

Lemma C6_direction_three_valued_witness :
  exists entry,
    SIP2.log_entries
      (SIP2.step (SIP2.MkState ∅ [])
         "10:00:05.000 Outgoing SIP Message Released")
      = [entry] /\
    Ref.direction_spec "10:00:05.000 Outgoing SIP Message Released" ""
      (SIP2.direction entry).
Proof.
  destruct (C6_direction_three_valued
              "10:00:05.000 Outgoing SIP Message Released") as [_ H].
  apply (H (SIP2.MkState ∅ [])).
  - by vm_compute.
  - right. apply contains_spec. by vm_compute.
Defined.

(** ** Status classification (TeasmLogsV3.py) *)

Section Classification.
Local Open Scope N_scope.

Lemma small_leading_digit n d k :
  1 <= d -> d * 10 ^ k <= n -> n < 10 -> k = 0.
Proof.
  intros Hd Hle Hn. destruct (N.eq_dec k 0) as [|Hk]; [done|exfalso].
  assert (10 ^ 1 <= 10 ^ k) by (apply N.pow_le_mono_r; lia).
  change (10 ^ 1) with 10 in *. nia.
Qed.

(** With enough fuel, the first character printed is the leading digit. *)
Lemma digits_acc_head fuel : forall n d k acc,
  1 <= d <= 9 -> d * 10 ^ k <= n < (d + 1) * 10 ^ k ->
  (N.to_nat k <= fuel)%nat ->
  exists rest, Py.digits_acc fuel n acc = String (Py.digit_char d) rest.
Proof.
  induction fuel as [|fuel IH]; intros n d k acc Hd Hn Hk.
  - assert (k = 0) as -> by lia. rewrite N.pow_0_r in Hn.
    assert (n = d) as -> by lia. cbn [Py.digits_acc].
    rewrite N.mod_small by lia. eauto.
  - cbn [Py.digits_acc]. destruct (N.eqb_spec (n / 10) 0) as [Hz|Hnz].
    + assert (n < 10) as Hlt.
      { apply N.div_small_iff in Hz; lia. }
      assert (k = 0) as -> by (apply (small_leading_digit n d); lia).
      rewrite N.pow_0_r in Hn. assert (n = d) as -> by lia.
      rewrite N.mod_small by lia. eauto.
    + assert (k <> 0) as Hk0.
      { intros ->. rewrite N.pow_0_r in Hn. apply Hnz, N.div_small. lia. }
      apply (IH (n / 10) d (N.pred k)); [done| |lia].
      assert (10 ^ k = 10 * 10 ^ N.pred k) as Hpow.
      { rewrite <- N.pow_succ_r', N.succ_pred; done. }
      rewrite Hpow in Hn. split.
      * apply N.div_le_lower_bound; lia.
      * apply N.Div0.div_lt_upper_bound; lia.
Qed.

Lemma str_nat_head n d :
  Ref.leading_digit n d ->
  exists rest, Py.str_nat n = String (Py.digit_char d) rest.
Proof.
  intros [Hd (k & Hn)]. unfold Py.str_nat.
  apply (digits_acc_head _ n d k); [done..|].
  assert (k <= N.log2 n); [|lia].
  rewrite <- (N.log2_pow2 k) by lia. apply N.log2_le_mono.
  assert (2 ^ k <= 10 ^ k) by (apply N.pow_le_mono_l; lia). nia.
Qed.

Lemma status_of_head d rest :
  1 <= d <= 9 ->
  (let s := String (Py.digit_char d) rest in
   if Str.startswith s "2" then CallStatus.SUCCESS
   else if Str.startswith s "1" then CallStatus.INFO
   else if Str.startswith s "4" || Str.startswith s "5" || Str.startswith s "6"
        then CallStatus.FAILED
   else if Str.startswith s "3" then CallStatus.WARNING
   else CallStatus.INFO) = Ref.status_of_digit d.
Proof.
  intros Hd.
  assert (d = 1 \/ d = 2 \/ d = 3 \/ d = 4 \/ d = 5 \/ d = 6 \/ d = 7
          \/ d = 8 \/ d = 9) as Hcases by lia.
  repeat (destruct Hcases as [-> | Hcases]; [reflexivity|]).
  by subst.
Qed.

Lemma determine_call_status_leading n d :
  Ref.leading_digit n d ->
  V3.determine_call_status (Z.of_N n) = Ref.status_of_digit d.
Proof.
  intros H. destruct (str_nat_head n d H) as [rest Hrest].
  destruct H as [Hd (k & Hn)].
  assert (0 < n) as Hpos.
  { assert (0 < 10 ^ k) by (apply N.neq_0_lt_0, N.pow_nonzero; lia). nia. }
  destruct n as [|p]; [lia|].
  unfold V3.determine_call_status. cbn [Z.of_N Py.str_int]. rewrite Hrest.
  exact (status_of_head d rest Hd).
Qed.

Lemma determine_call_status_nonpositive z :
  (z <= 0)%Z -> V3.determine_call_status z = CallStatus.INFO.
Proof.
  destruct z as [|p|p]; [reflexivity | lia | reflexivity].
Qed.

End Classification.

(** C2: the call status depends on the leading digit of the code only:
    2 gives SUCCESS, 1 gives INFO, 4, 5 and 6 give FAILED, 3 gives WARNING,
    any other leading digit (7, 8, 9) gives INFO, as do zero and negative
    values, which have no leading digit from 1 to 9; 200, 180, 404 and 302
    classify as SUCCESS, INFO, FAILED and WARNING. *)
Theorem C2_status_by_leading_digit :
  (forall n d : N, Ref.leading_digit n d ->
     V3.determine_call_status (Z.of_N n) = Ref.status_of_digit d) /\
  (forall z : Z, (z <= 0)%Z -> V3.determine_call_status z = CallStatus.INFO) /\
  V3.determine_call_status 200 = CallStatus.SUCCESS /\
  V3.determine_call_status 180 = CallStatus.INFO /\
  V3.determine_call_status 404 = CallStatus.FAILED /\
  V3.determine_call_status 302 = CallStatus.WARNING.
Proof.
  split; [apply determine_call_status_leading|].
  split; [apply determine_call_status_nonpositive|].
  repeat split; by vm_compute.
Qed.

Lemma C2_status_by_leading_digit_witness :
  Ref.leading_digit 486 4 /\
  V3.determine_call_status 486 = CallStatus.FAILED.
Proof.
  assert (Ref.leading_digit 486 4) as H.
  { split; [lia|]. exists 2%N. by vm_compute. }
  split; [exact H|].
  exact (proj1 C2_status_by_leading_digit 486%N 4%N H).
Defined.

(** ** Unknown status codes (the three revisions of [explain_sip]) *)

(** C7 (as stated) fails for TeasmLogsV3.py: for the code 999, which is not
    in its table, the simple explanation is the fixed text "Unknown SIP
    code", which does not contain the code. *)
Lemma C7_v3_unknown_code_text :
  Tables.sip_explanations !! 999%Z = None /\
  fst (fst (V3.explain_sip 999 0 "Not Found")) = "Unknown SIP code" /\
  fst (fst (V3.explain_sip 999 0 "Not Found")) <> "Unknown call issue: 999".
Proof. split; [by vm_compute|]. split; by vm_compute. Qed.

(** C7 (amended): classification of a status code that is not in the
    table never fails; in TeasmLogsV2.py (whose table is empty) the simple
    explanation is "Unknown call issue: {code}", in TeamsLog.py it is that
    text followed by a space and the subcode explanation, and in
    TeasmLogsV3.py it is the fixed text "Unknown SIP code". *)
Theorem C7_unknown_code_explanation
    (code subcode : Z) (phrase : string) :
  fst (fst (V2.explain_sip code subcode phrase))
    = "Unknown call issue: " ++ Py.str_int code /\
  (Tables.sip_explanations !! code = None ->
     TeamsLog.simple_explanation code
       = "Unknown call issue: " ++ Py.str_int code /\
     fst (TeamsLog.explain_sip code subcode phrase)
       = ("Unknown call issue: " ++ Py.str_int code) ++ " " ++
         TeamsLog.subcode_explanation subcode /\
     Ref.occurs (Py.str_int code)
       (fst (TeamsLog.explain_sip code subcode phrase)) /\
     fst (fst (V3.explain_sip code subcode phrase)) = "Unknown SIP code").
Proof.
  split; [reflexivity|]. intros Hnone.
  assert (TeamsLog.simple_explanation code
          = "Unknown call issue: " ++ Py.str_int code) as Hsimple.
  { unfold TeamsLog.simple_explanation. by rewrite Hnone. }
  split; [exact Hsimple|].
  assert (fst (TeamsLog.explain_sip code subcode phrase)
          = ("Unknown call issue: " ++ Py.str_int code) ++ " " ++
            TeamsLog.subcode_explanation subcode) as Hfull.
  { unfold TeamsLog.explain_sip. cbn [fst]. by rewrite Hsimple. }
  split; [exact Hfull|]. split.
  - rewrite Hfull. apply occurs_app_l, occurs_app_r, occurs_refl.
  - unfold V3.explain_sip. cbn [fst]. by rewrite Hnone.
Qed.

Lemma C7_unknown_code_explanation_witness :
  TeamsLog.simple_explanation 999 = "Unknown call issue: 999" /\
  fst (fst (V3.explain_sip 999 0 "Not Found")) = "Unknown SIP code".
Proof.
  destruct (C7_unknown_code_explanation 999 0 "Not Found") as [_ H].
  destruct H as (H1 & _ & _ & H4); [by vm_compute|].
  split; [exact H1 | exact H4].
Defined.

(** ** Column validation (TeasmLogsV2.py [process_file]) *)

Section Validation.
Import V2.

Lemma mem_string_spec x l : mem_string x l = true <-> In x l.
Proof.
  unfold mem_string. rewrite existsb_exists. split.
  - intros (y & Hin & Heq). apply String.eqb_eq in Heq. by subst.
  - intros Hin. exists x. split; [done | apply String.eqb_refl].
Qed.

(** The computed list holds exactly the required columns that the sheet
    lacks. *)
Lemma missing_fields_spec cols f :
  In f (missing_fields cols) <-> In f required_fields /\ ~ In f cols.
Proof.
  unfold missing_fields. rewrite filter_In, negb_true_iff.
  rewrite <- (mem_string_spec f cols).
  destruct (mem_string f cols); intuition congruence.
Qed.

End Validation.

(** C8: when the sheet lacks one or more required columns, [process_file]
    fails before any row is processed: it returns False, writes nothing,
    and its message is "Missing required fields: " followed by all the
    missing required columns, comma separated, so every one of them is
    named in it. *)
Theorem C8_missing_columns_reported
    (data : V2.table) (output_path : string) :
  (exists f, In f V2.required_fields /\ ~ In f (V2.columns data)) ->
  let out := V2.process_file (V2.Loaded data) output_path in
  V2.success out = false /\
  V2.written out = None /\
  V2.message out =
    "Missing required fields: " ++
    Str.join ", " (V2.missing_fields (V2.columns data)) /\
  (forall f, In f V2.required_fields -> ~ In f (V2.columns data) ->
     In f (V2.missing_fields (V2.columns data)) /\
     Ref.occurs f (V2.message out)).
Proof.
  intros (f0 & Hreq & Hmiss). cbn zeta. unfold V2.process_file.
  assert (In f0 (V2.missing_fields (V2.columns data))) as Hin.
  { by apply missing_fields_spec. }
  destruct (V2.missing_fields (V2.columns data)) as [|m ms] eqn:E;
    [destruct Hin|].
  cbn [V2.success V2.written V2.message].
  split; [done|]. split; [done|]. split; [done|].
  intros f Hf Hnf. rewrite <- E.
  assert (In f (V2.missing_fields (V2.columns data))) as Hf'.
  { by apply missing_fields_spec. }
  split; [exact Hf'|]. by apply occurs_app_r, occurs_join.
Qed.

Lemma C8_missing_columns_reported_witness :
  V2.message
    (V2.process_file
       (V2.Loaded (V2.MkTable ["UPN"; "Final SIP code"; "Final SIP Phrase"] []))
       "out.xlsx")
  = "Missing required fields: Display Name, Final Microsoft subcode".
Proof.
  destruct (C8_missing_columns_reported
              (V2.MkTable ["UPN"; "Final SIP code"; "Final SIP Phrase"] [])
              "out.xlsx") as (_ & _ & Hmsg & _).
  - exists "Display Name". split; [apply mem_string_spec; by vm_compute|].
    intros H. cbn in H. destruct H as [H|[H|[H|[]]]]; discriminate H.
  - rewrite Hmsg. by vm_compute.
Defined.

(** ** Message blocks (SIP.py [analyze_logs]) *)

Section Segmentation.
Import SIP.

Lemma split_lines_nonempty s : Str.split_lines s <> [].
Proof.
  destruct s as [|c s]; cbn [Str.split_lines]; [done|].
  destruct (Ascii.eqb c Chars.LF); [done|].
  by destruct (Str.split_lines s).
Qed.

Lemma join_cons_cons sep x y l :
  Str.join sep (x :: y :: l) = x ++ sep ++ Str.join sep (y :: l).
Proof. reflexivity. Qed.

(** Joining the lines of a text with line feeds gives the text back. *)
Lemma join_split_lines s : Str.join Str.nl (Str.split_lines s) = s.
Proof.
  induction s as [|c s IH]; [reflexivity|]. cbn [Str.split_lines].
  pose proof (split_lines_nonempty s) as Hne.
  destruct (Ascii.eqb_spec c Chars.LF) as [->|Hc].
  - destruct (Str.split_lines s) as [|l ls]; [done|].
    rewrite join_cons_cons, IH. reflexivity.
  - destruct (Str.split_lines s) as [|l ls]; [done|].
    destruct ls as [|l' ls].
    + cbn [Str.join] in *. by rewrite IH.
    + rewrite join_cons_cons in *. by rewrite append_cons, IH.
Qed.

Lemma flush_empty msgs : flush (MkSeg msgs []) = msgs.
Proof. reflexivity. Qed.

Lemma flush_cons msgs l ls :
  flush (MkSeg msgs (l :: ls)) = (msgs ++ [Str.join Str.nl (l :: ls)])%list.
Proof. reflexivity. Qed.

(** Lines without a timestamp extend the current block. *)
Lemma fold_plain_lines ls : forall st,
  Forall (fun l => Ref.timestamp_led l = false) ls ->
  fold_left seg_step ls st
  = MkSeg (messages st) (current_message st ++ ls).
Proof.
  induction ls as [|l ls IH]; intros st Hls.
  - cbn [fold_left]. rewrite app_nil_r. by destruct st.
  - inversion Hls as [|? ? Hl Hls']; subst. cbn [fold_left].
    rewrite IH by done. unfold seg_step. rewrite starts_block_spec, Hl.
    cbn [messages current_message]. by rewrite <- app_assoc.
Qed.

(** A timestamp-led line closes the current block, if any, and opens one. *)
Lemma seg_step_timestamp st l :
  Ref.timestamp_led l = true -> seg_step st l = MkSeg (flush st) [l].
Proof.
  intros Hl. unfold seg_step. rewrite starts_block_spec, Hl.
  destruct st as [msgs [|c cur]]; reflexivity.
Qed.

Lemma fold_group g st :
  Ref.well_formed g ->
  fold_left seg_step (Ref.group_lines g) st
  = MkSeg (flush st) (Ref.group_lines g).
Proof.
  intros [Hhead Hmore]. unfold Ref.group_lines. cbn [fold_left].
  rewrite seg_step_timestamp by done. by rewrite fold_plain_lines.
Qed.

Lemma flush_fold_groups groups : forall st,
  Forall Ref.well_formed groups ->
  flush (fold_left seg_step (concat (map Ref.group_lines groups)) st)
  = (flush st ++ map Ref.block_of groups)%list.
Proof.
  induction groups as [|g groups IH]; intros st Hg.
  - cbn. by rewrite app_nil_r.
  - inversion Hg as [|? ? Hwf Hg']; subst.
    cbn [map concat]. rewrite fold_left_app, (fold_group g) by done.
    rewrite IH by done. unfold Ref.group_lines at 1. rewrite flush_cons.
    by rewrite <- app_assoc.
Qed.

(** The blocks of any list of lines: the lines before the first
    timestamp-led line form a block if there are any, and every
    timestamp-led line opens one block that runs to the next such line. *)
Lemma segment_lines_spec pre groups :
  Forall (fun l => Ref.timestamp_led l = false) pre ->
  Forall Ref.well_formed groups ->
  segment_lines (pre ++ concat (map Ref.group_lines groups))
  = Ref.blocks_of pre groups.
Proof.
  intros Hpre Hg. unfold segment_lines, Ref.blocks_of.
  rewrite fold_left_app, (fold_plain_lines pre) by done.
  rewrite flush_fold_groups by done. cbn [messages current_message app].
  by destruct pre.
Qed.

Lemma digit_not_space c : Chars.is_digit c = true -> Chars.is_space c = false.
Proof.
  unfold Chars.is_digit, Chars.is_space, Chars.between.
  generalize (Chars.code c). intros n H.
  apply andb_true_iff in H as [H1 H2].
  apply N.leb_le in H1. apply N.leb_le in H2.
  repeat (apply orb_false_iff; split);
    first [ apply andb_false_iff; rewrite !N.leb_gt; lia
          | apply N.eqb_neq; lia ].
Qed.

(** A timestamp-led block is not blank. *)
Lemma timestamp_led_not_blank s :
  Ref.timestamp_led s = true -> Str.strip_nonempty s = true.
Proof.
  destruct s as [|c s]; [discriminate|]. intros H.
  assert (Chars.is_digit c = true) as Hc.
  { do 11 (destruct s as [|? s]; [discriminate|]).
    cbn [Ref.timestamp_led] in H. by destruct (Chars.is_digit c). }
  unfold Str.strip_nonempty. cbn [Str.lstrip].
  by rewrite (digit_not_space c Hc).
Qed.

(** Text appended to a timestamp-led line leaves it timestamp-led. *)
Lemma timestamp_led_app s r :
  Ref.timestamp_led s = true -> Ref.timestamp_led (s ++ r) = true.
Proof.
  do 12 (destruct s as [|? s]; [discriminate|]).
  by rewrite !append_cons.
Qed.

Lemma block_of_head g :
  exists rest, Ref.block_of g = Ref.head_line g ++ rest.
Proof.
  unfold Ref.block_of, Ref.group_lines. destruct (Ref.more_lines g) as [|l ls].
  - exists "". cbn [Str.join]. by rewrite append_nil_r.
  - eexists. by rewrite join_cons_cons.
Qed.

Lemma block_of_timestamp_led g :
  Ref.well_formed g -> Ref.timestamp_led (Ref.block_of g) = true.
Proof.
  intros [Hhead _]. destruct (block_of_head g) as [rest ->].
  by apply timestamp_led_app.
Qed.

Lemma filter_all_true {A} (f : A -> bool) l :
  Forall (fun x => f x = true) l -> List.filter f l = l.
Proof.
  induction 1 as [|x l Hx _ IH]; [done|]. cbn. by rewrite Hx, IH.
Qed.

Lemma strip_nonempty_spec s : Str.strip_nonempty s = negb (Ref.all_space s).
Proof.
  unfold Str.strip_nonempty. induction s as [|c s IH]; [done|].
  cbn [Str.lstrip Ref.all_space]. by destruct (Chars.is_space c).
Qed.

End Segmentation.

(** C3: a line opens a new block exactly when it begins with the
    HH:MM:SS.mmm timestamp.  For a text whose lines are N groups, each a
    timestamp-led line followed by lines that are not, segmentation
    returns N blocks, the i-th being the lines of the i-th group and
    starting with its timestamp line, and none of them is dropped; for a
    text with no timestamp-led line it returns the one block holding the
    whole text (which is then dropped if the text is all white space); in
    general the lines before the first timestamp-led line form one more
    block; the blocks passed on to extraction are those that are not all
    white space. *)
Theorem C3_segmentation :
  (forall text groups,
     Str.split_lines text = concat (map Ref.group_lines groups) ->
     Forall Ref.well_formed groups ->
     SIP.segment text = map Ref.block_of groups /\
     length (SIP.segment text) = length groups /\
     Forall (fun g => exists rest,
                Ref.block_of g = Ref.head_line g ++ rest /\
                Ref.timestamp_led (Ref.block_of g) = true) groups /\
     SIP.kept_messages text = SIP.segment text) /\
  (forall text,
     Forall (fun l => Ref.timestamp_led l = false) (Str.split_lines text) ->
     SIP.segment text = [text] /\
     SIP.kept_messages text = if Ref.all_space text then [] else [text]) /\
  (forall text pre groups,
     Str.split_lines text = (pre ++ concat (map Ref.group_lines groups))%list ->
     Forall (fun l => Ref.timestamp_led l = false) pre ->
     Forall Ref.well_formed groups ->
     SIP.segment text = Ref.blocks_of pre groups) /\
  (forall text,
     SIP.kept_messages text
     = List.filter (fun b => negb (Ref.all_space b)) (SIP.segment text)).
Proof.
  assert (forall text pre groups,
     Str.split_lines text = (pre ++ concat (map Ref.group_lines groups))%list ->
     Forall (fun l => Ref.timestamp_led l = false) pre ->
     Forall Ref.well_formed groups ->
     SIP.segment text = Ref.blocks_of pre groups) as Hgen.
  { intros text pre groups Hlines Hpre Hg. unfold SIP.segment.
    rewrite Hlines. by apply segment_lines_spec. }
  split; [|split; [|split; [exact Hgen|]]].
  - intros text groups Hlines Hg.
    assert (SIP.segment text = map Ref.block_of groups) as Hseg.
    { apply (Hgen text [] groups); [exact Hlines | constructor | exact Hg]. }
    split; [exact Hseg|]. split; [by rewrite Hseg, length_map|]. split.
    + clear Hlines Hseg. induction Hg as [|g groups Hwf _ IH]; constructor.
      * destruct (block_of_head g) as [rest Hrest]. exists rest.
        split; [exact Hrest | by apply block_of_timestamp_led].
      * exact IH.
    + unfold SIP.kept_messages. rewrite Hseg. apply filter_all_true.
      clear Hlines Hseg. induction Hg as [|g groups Hwf _ IH]; constructor.
      * by apply timestamp_led_not_blank, block_of_timestamp_led.
      * exact IH.
  - intros text Hplain.
    assert (SIP.segment text = [text]) as Hseg.
    { rewrite (Hgen text (Str.split_lines text) []);
        [|by rewrite app_nil_r|exact Hplain|constructor].
      unfold Ref.blocks_of. pose proof (split_lines_nonempty text) as Hne.
      pose proof (join_split_lines text) as Hjoin.
      destruct (Str.split_lines text) as [|l ls]; [done|].
      cbn [map app]. by rewrite Hjoin. }
    split; [exact Hseg|]. unfold SIP.kept_messages. rewrite Hseg.
    cbn [List.filter]. rewrite strip_nonempty_spec.
    by destruct (Ref.all_space text).
  - intros text. unfold SIP.kept_messages.
    apply filter_ext. intros b. apply strip_nonempty_spec.
Qed.

Lemma C3_segmentation_witness :
  SIP.segment
    ("10:00:00.000 INVITE" ++ Str.nl ++ "FROM: <a@x>" ++ Str.nl ++
     "10:00:01.000 SIP/2.0 200 OK")
  = [ "10:00:00.000 INVITE" ++ Str.nl ++ "FROM: <a@x>";
      "10:00:01.000 SIP/2.0 200 OK" ] /\
  SIP.segment ("no timestamp" ++ Str.nl ++ "at all")
  = [ "no timestamp" ++ Str.nl ++ "at all" ].
Proof.
  destruct C3_segmentation as (Hgroups & Hplain & _ & _). split.
  - destruct (Hgroups
        ("10:00:00.000 INVITE" ++ Str.nl ++ "FROM: <a@x>" ++ Str.nl ++
         "10:00:01.000 SIP/2.0 200 OK")
        [ Ref.MkGroup "10:00:00.000 INVITE" ["FROM: <a@x>"];
          Ref.MkGroup "10:00:01.000 SIP/2.0 200 OK" [] ]) as [Hseg _].
    + by vm_compute.
    + repeat constructor.
    + rewrite Hseg. by vm_compute.
  - apply Hplain. vm_compute. repeat constructor.
Defined.

(** ** The success rate (TeasmLogsV3.py [process_file]) *)

Section SuccessRate.
Import V3.
Local Open Scope Z_scope.

(** The status is always one of the four constants. *)
Lemma determine_call_status_cases code :
  determine_call_status code = CallStatus.SUCCESS \/
  determine_call_status code = CallStatus.INFO \/
  determine_call_status code = CallStatus.FAILED \/
  determine_call_status code = CallStatus.WARNING.
Proof.
  unfold determine_call_status. cbn zeta.
  repeat match goal with
         | |- context [if ?b then _ else _] => destruct b
         end; auto.
Qed.

Lemma count_row_total c r :
  total_attempted_calls (count_row c r)
  = total_attempted_calls c + (if Ref.is_attempted r then 1 else 0).
Proof.
  unfold count_row, Ref.is_attempted. cbn zeta.
  destruct (positive_duration (duration r)); [|cbn; lia].
  repeat match goal with
         | |- context [if String.eqb ?a ?b then _ else _] =>
             destruct (String.eqb a b)
         end; cbn; lia.
Qed.

Lemma count_row_successful c r :
  successful_calls (count_row c r)
  = successful_calls c
    + (if Ref.is_attempted r && Ref.status_is CallStatus.SUCCESS r
       then 1 else 0).
Proof.
  unfold count_row, Ref.is_attempted, Ref.status_is. cbn zeta.
  destruct (positive_duration (duration r)); [|cbn; lia].
  cbn [andb].
  destruct (String.eqb (determine_call_status (final_sip_code r))
              CallStatus.SUCCESS); [cbn; lia|].
  repeat match goal with
         | |- context [if String.eqb ?a ?b then _ else _] =>
             destruct (String.eqb a b)
         end; cbn; lia.
Qed.

Lemma length_filter_cons {A} (f : A -> bool) x l :
  Z.of_nat (length (List.filter f (x :: l)))
  = (if f x then 1 else 0) + Z.of_nat (length (List.filter f l)).
Proof. cbn [List.filter]. destruct (f x); cbn [length]; lia. Qed.

(** The counters after the loop are the two counts. *)
Lemma fold_count_rows rs : forall c,
  total_attempted_calls (fold_left count_row rs c)
    = total_attempted_calls c + Z.of_nat (Ref.attempted rs) /\
  successful_calls (fold_left count_row rs c)
    = successful_calls c + Z.of_nat (Ref.successful rs).
Proof.
  unfold Ref.attempted, Ref.successful.
  induction rs as [|r rs IH]; intros c.
  - cbn. lia.
  - cbn [fold_left]. destruct (IH (count_row c r)) as [H1 H2].
    rewrite H1, H2, count_row_total, count_row_successful.
    rewrite !length_filter_cons. lia.
Qed.

Lemma count_rows_spec rs :
  total_attempted_calls (count_rows rs) = Z.of_nat (Ref.attempted rs) /\
  successful_calls (count_rows rs) = Z.of_nat (Ref.successful rs).
Proof.
  unfold count_rows. destruct (fold_count_rows rs no_calls) as [H1 H2].
  rewrite H1, H2. cbn. lia.
Qed.

Lemma success_rate_spec rs :
  success_rate rs =
  if Z.of_nat (Ref.attempted rs) =? 0 then Some PyFloat.zero
  else Ref.rate (Z.of_nat (Ref.successful rs)) (Z.of_nat (Ref.attempted rs)).
Proof.
  unfold success_rate, success_rate_of, Ref.rate.
  destruct (count_rows_spec rs) as [-> ->].
  destruct (Z.eqb_spec (Z.of_nat (Ref.attempted rs)) 0) as [->|Hne]; [done|].
  destruct (Z.gtb_spec (Z.of_nat (Ref.attempted rs)) 0); [done | lia].
Qed.

(** The guarded division never raises. *)
Lemma success_rate_defined rs : exists x, success_rate rs = Some x.
Proof.
  rewrite success_rate_spec.
  destruct (Z.eqb_spec (Z.of_nat (Ref.attempted rs)) 0) as [|Hne]; [eauto|].
  unfold Ref.rate, PyFloat.truediv.
  destruct (Z.eqb_spec (Z.of_nat (Ref.attempted rs)) 0); [done | eauto].
Qed.

(** One half of the calls. *)
Lemma rate_half k : 0 < k -> Ref.rate k (2 * k) = Some (PyFloat.of_int 50).
Proof.
  intros Hk. unfold Ref.rate, PyFloat.truediv.
  destruct (Z.eqb_spec (2 * k) 0); [lia|].
  assert (Qred (Qmake (Z.sgn (2 * k) * k) (Z.to_pos (Z.abs (2 * k))))
          = Qred (Qmake 1 2)) as ->.
  { apply Qred_complete. unfold Qeq. cbn [Qnum Qden].
    rewrite Z2Pos.id by lia. rewrite Z.sgn_pos by lia. lia. }
  by vm_compute.
Qed.

End SuccessRate.

Section EvenSplit.
Import V3.

Lemma attempted_all rs :
  Forall (fun r => Ref.is_attempted r = true) rs ->
  Ref.attempted rs = length rs /\
  Ref.successful rs = Ref.count_status CallStatus.SUCCESS rs.
Proof.
  unfold Ref.attempted, Ref.successful, Ref.count_status.
  induction 1 as [|r rs Hr _ [IH1 IH2]]; [done|].
  cbn [List.filter]. rewrite Hr. cbn [andb length].
  destruct (Ref.status_is CallStatus.SUCCESS r); cbn [length]; lia.
Qed.

Lemma success_or_failure_length rs :
  Forall (fun r => Ref.status_is CallStatus.SUCCESS r = true \/
                   Ref.status_is CallStatus.FAILED r = true) rs ->
  length rs = (Ref.count_status CallStatus.SUCCESS rs
               + Ref.count_status CallStatus.FAILED rs)%nat.
Proof.
  unfold Ref.count_status.
  induction 1 as [|r rs Hr _ IH]; [done|].
  cbn [List.filter length]. unfold Ref.status_is in *.
  destruct (String.eqb_spec (determine_call_status (final_sip_code r))
              CallStatus.SUCCESS) as [Hs|Hs];
    destruct (String.eqb_spec (determine_call_status (final_sip_code r))
                CallStatus.FAILED) as [Hf|Hf]; cbn [length].
  - rewrite Hs in Hf. discriminate Hf.
  - lia.
  - lia.
  - destruct Hr as [Hr|Hr]; discriminate Hr.
Qed.

End EvenSplit.

(** *** The counts and the duration test *)

Section RateSpec.
Import V3.

(** The test [duration > 0] of the loop is the one of the specification. *)
Lemma positive_duration_above_zero d :
  positive_duration d = Rate.above_zero d.
Proof.
  destruct d as [[n den]|]; [|done].
  unfold positive_duration, Rate.above_zero, Qcompare, Z.ltb.
  cbn [Qnum Qden]. by rewrite Z.mul_1_r.
Qed.

Lemma above_zero_spec d :
  Rate.above_zero d = true <-> exists q, d = Some q /\ (0 < q)%Q.
Proof.
  unfold Rate.above_zero. split.
  - destruct d as [q|]; [|done]. intros H. exists q. split; [done|].
    apply Z.ltb_lt in H. unfold Qlt. cbn [Qnum Qden]. lia.
  - intros (q & -> & H). apply Z.ltb_lt. unfold Qlt in H.
    cbn [Qnum Qden] in H. lia.
Qed.

Lemma is_attempted_row r : Ref.is_attempted r = Rate.attempted_row r.
Proof. apply positive_duration_above_zero. Qed.

Lemma attempted_counts rs :
  Ref.attempted rs = Rate.attempted rs /\
  Ref.successful rs = Rate.successful rs.
Proof.
  unfold Ref.attempted, Ref.successful, Rate.attempted, Rate.successful.
  split; f_equal; apply filter_ext; intros r.
  - apply is_attempted_row.
  - unfold Rate.successful_row. by rewrite is_attempted_row.
Qed.

End RateSpec.

(** *** Rounding to two decimal places *)

Section Rounding.
Local Open Scope Z_scope.

(** At a tie [round_half_even] returns the even neighbour. *)
Lemma round_half_even_tie (n : Z) (d : positive) :
  2 * Z.abs (n - PyFloat.round_half_even n d * Zpos d) = Zpos d ->
  Z.even (PyFloat.round_half_even n d) = true.
Proof.
  unfold PyFloat.round_half_even.
  pose proof (Z.div_mod n (Zpos d) ltac:(lia)) as Hdm.
  pose proof (Z.mod_pos_bound n (Zpos d) ltac:(lia)) as Hb.
  destruct (Z.compare_spec (2 * (n mod Zpos d)) (Zpos d)) as [He|Hl|Hg].
  - intros _. destruct (Z.even (n / Zpos d)) eqn:E; [done|].
    rewrite Z.even_add, E. done.
  - intros H. exfalso. nia.
  - intros H. exfalso. nia.
Qed.

(** [round_half_even] returns an integer nearest to the quotient. *)
Lemma round_half_even_nearest (n : Z) (d : positive) :
  2 * Z.abs (n - PyFloat.round_half_even n d * Zpos d) <= Zpos d.
Proof.
  unfold PyFloat.round_half_even.
  pose proof (Z.div_mod n (Zpos d) ltac:(lia)) as Hdm.
  pose proof (Z.mod_pos_bound n (Zpos d) ltac:(lia)) as Hb.
  destruct (Z.compare_spec (2 * (n mod Zpos d)) (Zpos d)) as [He|Hl|Hg].
  - destruct (Z.even (n / Zpos d)); nia.
  - nia.
  - nia.
Qed.

(** The distance of a fraction to an integer, in integers. *)
Lemma Qabs_diff_frac (n : Z) (d : positive) (h : Z) :
  (Qabs ((n # d) - inject_Z h) == Z.abs (n - h * Zpos d) # d)%Q.
Proof.
  unfold Qabs, Qminus, Qplus, Qopp, inject_Z, Qeq. cbn [Qnum Qden].
  rewrite Pos.mul_1_r. f_equal. f_equal. lia.
Qed.

Lemma nearest_even_frac (n : Z) (d : positive) (h : Z) :
  Rate.nearest_even (n # d) h <->
  2 * Z.abs (n - h * Zpos d) <= Zpos d /\
  (2 * Z.abs (n - h * Zpos d) = Zpos d -> Z.even h = true).
Proof.
  unfold Rate.nearest_even. rewrite Qabs_diff_frac.
  unfold Qle, Qeq. cbn [Qnum Qden].
  split; intros [H1 H2]; (split; [lia|]); intros H; apply H2; lia.
Qed.

Lemma nearest_even_proper v v' h :
  (v == v')%Q -> Rate.nearest_even v h -> Rate.nearest_even v' h.
Proof.
  unfold Rate.nearest_even. intros E [H1 H2]. rewrite <- E. by split.
Qed.

(** At most one integer is nearest in this sense. *)
Lemma nearest_even_unique v h1 h2 :
  Rate.nearest_even v h1 -> Rate.nearest_even v h2 -> h1 = h2.
Proof.
  destruct v as [n d]. rewrite !nearest_even_frac.
  intros [A1 A2] [B1 B2].
  assert (Z.abs (h1 - h2) <= 1) as Hd by nia.
  destruct (Z.eq_dec h1 h2) as [|Hne]; [done|]. exfalso.
  assert (h1 = h2 + 1 \/ h2 = h1 + 1) as [->| ->] by lia.
  - assert (Z.even (h2 + 1) = true) as E1 by (apply A2; nia).
    assert (Z.even h2 = true) as E2 by (apply B2; nia).
    rewrite Z.even_add, E2 in E1. discriminate E1.
  - assert (Z.even (h1 + 1) = true) as E1 by (apply B2; nia).
    assert (Z.even h1 = true) as E2 by (apply A2; nia).
    rewrite Z.even_add, E2 in E1. discriminate E1.
Qed.

Lemma value_finite_neg s m p :
  (Rate.value (S754_finite s m (Zneg p))
   == cond_Zopp s (Zpos m) # (2 ^ p)%positive)%Q.
Proof.
  unfold Rate.value. cbn [Qpower]. 
  change 2%Q with (2 # 1)%Q. rewrite Qpower_decomp_positive.
  rewrite <- Pos2Z.inj_pow.
  assert ((1 ^ p)%positive = 1%positive) as ->.
  { apply Pos2Z.inj. rewrite Pos2Z.inj_pow. apply Z.pow_1_l. lia. }
  unfold Qinv, Qmult, inject_Z, Qeq. cbn [Qnum Qden]. lia.
Qed.

Lemma value_finite_nonneg s m e :
  0 <= e ->
  (Rate.value (S754_finite s m e)
   == inject_Z (cond_Zopp s (Zpos m) * 2 ^ e))%Q.
Proof.
  intros He. unfold Rate.value.
  rewrite inject_Z_mult, (Zpower_Qpower 2 e He). reflexivity.
Qed.

(** [round(x, 2)] rounds to two decimal places. *)
Lemma round2_rounded x : Rate.rounded_to_hundredths x (PyFloat.round2 x).
Proof.
  destruct x as [s| | |s m e]; cbn [Rate.rounded_to_hundredths]; try done.
  - exists 0. split; [|done]. unfold Rate.value.
    apply (nearest_even_proper (0 # 1)); [reflexivity|].
    apply nearest_even_frac. cbn. split; [lia|]. intros H; lia.
  - unfold PyFloat.round2. cbn zeta.
    set (v := cond_Zopp s (Zpos m)).
    destruct e as [|e|p].
    + exists (v * 100 * 2 ^ 0). split; [|done].
      apply (nearest_even_proper (v * 100 * 2 ^ 0 # 1)).
      { rewrite (value_finite_nonneg s m 0) by lia. fold v.
        unfold Qeq, Qmult, inject_Z. cbn [Qnum Qden]. lia. }
      apply nearest_even_frac. split; [lia|]. intros H; lia.
    + exists (v * 100 * 2 ^ Zpos e). split; [|done].
      apply (nearest_even_proper (v * 100 * 2 ^ Zpos e # 1)).
      { rewrite (value_finite_nonneg s m (Zpos e)) by lia. fold v.
        unfold Qeq, Qmult, inject_Z. cbn [Qnum Qden]. lia. }
      apply nearest_even_frac. split; [lia|]. intros H; lia.
    + exists (PyFloat.round_half_even (v * 100) (2 ^ p)). split; [|done].
      apply (nearest_even_proper (v * 100 # 2 ^ p)).
      { rewrite value_finite_neg. fold v.
        unfold Qeq, Qmult. cbn [Qnum Qden]. lia. }
      apply nearest_even_frac. split.
      * apply round_half_even_nearest.
      * apply round_half_even_tie.
Qed.

Lemma rounded_to_hundredths_unique x r1 r2 :
  Rate.rounded_to_hundredths x r1 -> Rate.rounded_to_hundredths x r2 ->
  r1 = r2.
Proof.
  destruct x as [s| | |s m e]; cbn [Rate.rounded_to_hundredths];
    try congruence.
  - intros (h1 & N1 & ->) (h2 & N2 & ->).
    by rewrite (nearest_even_unique _ _ _ N1 N2).
  - intros (h1 & N1 & ->) (h2 & N2 & ->).
    by rewrite (nearest_even_unique _ _ _ N1 N2).
Qed.

(** Checked on each of the 101 values. *)
Lemma whole_percents_computed :
  forallb
    (fun k => Qeq_bool (Rate.value (Rate.hundredths false (100 * k)))
                       (inject_Z k))
    (map Z.of_nat (List.seq 0 101)) = true.
Proof. by vm_compute. Qed.

(** The float written [k.00] is the integer [k], for the whole percents
    from 0 to 100. *)
Lemma whole_percents (k : Z) :
  (0 <= k <= 100)%Z ->
  (Rate.value (Rate.hundredths false (100 * k)) == inject_Z k)%Q.
Proof.
  intros Hk. apply Qeq_bool_iff.
  pose proof whole_percents_computed as H.
  rewrite forallb_forall in H. apply (H k).
  apply in_map_iff. exists (Z.to_nat k). split; [lia|].
  apply in_seq. lia.
Qed.

End Rounding.

(** *** The rate of a list of rows *)

Section RateOfRows.
Import V3.

Lemma counters_are_counts rs :
  total_attempted_calls (count_rows rs) = Z.of_nat (Rate.attempted rs) /\
  successful_calls (count_rows rs) = Z.of_nat (Rate.successful rs).
Proof.
  destruct (attempted_counts rs) as [<- <-]. apply count_rows_spec.
Qed.

Lemma success_rate_rounded rs :
  (0 < Rate.attempted rs)%nat ->
  exists q r,
    PyFloat.truediv (Z.of_nat (Rate.successful rs))
                    (Z.of_nat (Rate.attempted rs)) = Some q /\
    success_rate rs = Some r /\
    Rate.rounded_to_hundredths (PyFloat.fmul q (PyFloat.of_int 100)) r.
Proof.
  intros Hpos. unfold success_rate, success_rate_of.
  destruct (counters_are_counts rs) as [-> ->].
  destruct (Z.gtb_spec (Z.of_nat (Rate.attempted rs)) 0) as [_|]; [|lia].
  unfold PyFloat.truediv.
  destruct (Z.eqb_spec (Z.of_nat (Rate.attempted rs)) 0) as [|_]; [lia|].
  eexists _, _. split; [reflexivity|]. split; [reflexivity|].
  apply round2_rounded.
Qed.

Lemma success_rate_none_attempted rs :
  Rate.attempted rs = 0%nat -> success_rate rs = Some PyFloat.zero.
Proof.
  intros H0. unfold success_rate, success_rate_of.
  destruct (counters_are_counts rs) as [-> _]. by rewrite H0.
Qed.

Lemma success_rate_even_split rs :
  rs <> [] ->
  Forall (fun r => exists q, duration r = Some q /\ (0 < q)%Q) rs ->
  Forall (fun r => Rate.classified CallStatus.SUCCESS r = true \/
                   Rate.classified CallStatus.FAILED r = true) rs ->
  Rate.with_status CallStatus.SUCCESS rs
    = Rate.with_status CallStatus.FAILED rs ->
  success_rate rs = Some (PyFloat.of_int 50).
Proof.
  intros Hne Hatt Hsf Heven.
  assert (Forall (fun r => Ref.is_attempted r = true) rs) as Hatt'.
  { clear -Hatt. induction Hatt as [|r rs' Hr _ IH]; constructor; [|done].
    rewrite is_attempted_row. by apply above_zero_spec. }
  rewrite success_rate_spec.
  destruct (attempted_all rs Hatt') as [-> ->].
  pose proof (success_or_failure_length rs Hsf) as Hlen.
  change (Ref.count_status CallStatus.FAILED rs)
    with (Rate.with_status CallStatus.FAILED rs) in Hlen.
  change (Ref.count_status CallStatus.SUCCESS rs)
    with (Rate.with_status CallStatus.SUCCESS rs) in *.
  assert (0 < length rs)%nat as Hpos by (destruct rs; [done | cbn; lia]).
  destruct (Z.eqb_spec (Z.of_nat (length rs)) 0) as [|_]; [lia|].
  replace (Z.of_nat (length rs))
    with (2 * Z.of_nat (Rate.with_status CallStatus.SUCCESS rs))%Z by lia.
  apply rate_half. lia.
Qed.

Lemma rows_read_with_column s :
  has_duration_column s = true -> rows_read s = sheet_rows s.
Proof.
  intros Hc. unfold rows_read, row_get_duration. rewrite Hc.
  induction (sheet_rows s) as [|[d c m p] rs IH]; [done|].
  cbn [map]. by rewrite IH.
Qed.

Lemma rows_read_without_column s :
  has_duration_column s = false -> Rate.attempted (rows_read s) = 0%nat.
Proof.
  intros Hc. unfold rows_read, row_get_duration, Rate.attempted. rewrite Hc.
  induction (sheet_rows s) as [|r rs IH]; [done|]. cbn [map List.filter].
  exact IH.
Qed.

End RateOfRows.



(** ** Checks of the arithmetic models on known values *)

(** One call in three: 33.33, the double [4690780486883082 * 2^-47]. *)
Example rate_one_third :
  Ref.rate 1 3 = Some (S754_finite false 4690780486883082 (-47)).
Proof. by vm_compute. Qed.

(** One call in eight hundred: 0.125 is a tie and rounds to 0.12. *)
Example rate_tie_to_even :
  Ref.rate 1 800 = Ref.rate 12 10000.
Proof. by vm_compute. Qed.

Example str_int_samples :
  map Py.str_int [0; 7; 10; 404; -200; 560404]%Z
  = ["0"; "7"; "10"; "404"; "-200"; "560404"].
Proof. by vm_compute. Qed.

(** * Further properties of the scripts *)

(** ** The whole scan of SIP2.py *)

Section Scan.
Import SIP2.

Lemma step_emits st line :
  Facts.emits line = true ->
  step st line =
  MkState ∅
    (log_entries st ++
     [make_entry (String.substring 0 12 line) line
        (update_session line (current_session st))]).
Proof.
  unfold Facts.emits. intros [Hts Hend]%andb_true_iff.
  rewrite step_timestamp by done. cbn zeta. by rewrite Hend.
Qed.

Lemma step_quiet st line :
  Facts.emits line = false ->
  log_entries (step st line) = log_entries st.
Proof.
  unfold Facts.emits. intros H.
  destruct (Ref.timestamp_led line) eqn:Hts.
  - rewrite step_timestamp by done. cbn zeta.
    cbn [andb] in H. by rewrite H.
  - by rewrite step_no_timestamp.
Qed.

(** The scan with an invariant [I] on the session context and a property
    [P] of the records appended under it. *)
Lemma scan_invariant (I : gmap string string -> Prop) (P : call_record -> Prop) :
  I ∅ ->
  (forall ctx line, I ctx -> I (update_session line ctx)) ->
  (forall ctx line, I ctx -> Facts.emits line = true ->
     P (make_entry (String.substring 0 12 line) line (update_session line ctx))) ->
  forall lines st, I (current_session st) ->
    exists new,
      log_entries (fold_left step lines st) = (log_entries st ++ new)%list /\
      length new = length (List.filter Facts.emits lines) /\
      Forall P new /\
      I (current_session (fold_left step lines st)).
Proof.
  intros Hempty Hupd Hnew lines.
  induction lines as [|line lines IH]; intros st Hst.
  - exists []. cbn. by rewrite app_nil_r.
  - cbn [fold_left List.filter]. destruct (Facts.emits line) eqn:He.
    + rewrite step_emits by done.
      destruct (IH (MkState ∅
                      (log_entries st ++
                       [make_entry (String.substring 0 12 line) line
                          (update_session line (current_session st))])))
        as (new & Hlog & Hlen & HP & HI); [exact Hempty|].
      eexists (_ :: new). cbn [log_entries] in Hlog.
      rewrite Hlog, <- app_assoc. split; [reflexivity|].
      split; [cbn; by rewrite Hlen|]. split; [|exact HI].
      constructor; [by apply Hnew | exact HP].
    + destruct (IH (step st line)) as (new & Hlog & Hlen & HP & HI).
      { destruct (Ref.timestamp_led line) eqn:Hts.
        - rewrite step_timestamp by done. cbn zeta.
          unfold Facts.emits in He. rewrite Hts in He. cbn [andb] in He.
          rewrite He. by apply Hupd.
        - by rewrite step_no_timestamp. }
      exists new. rewrite Hlog, step_quiet by done. done.
Qed.

Lemma timestamp_prefix line :
  Ref.timestamp_led line = true ->
  Ref.timestamp_led (String.substring 0 12 line) = true /\
  String.length (String.substring 0 12 line) = 12.
Proof.
  do 12 (destruct line as [|? line]; [discriminate|]).
  intros H. cbn [String.substring]. split.
  - destruct line; exact H.
  - by destruct line.
Qed.

Lemma update_session_duration line ctx :
  ctx !! "duration" = None -> update_session line ctx !! "duration" = None.
Proof.
  intros H. unfold update_session, update_reason, update_callee, update_caller.
  repeat match goal with
         | |- context [if ?b then _ else _] => destruct b
         | |- context [match ?o with Some _ => _ | None => _ end] => destruct o
         end;
    by rewrite ?lookup_insert_ne.
Qed.

(** The entries already held do not influence the scan. *)
Lemma scan_entries_irrelevant lines : forall ctx es,
  current_session (fold_left step lines (MkState ctx es))
    = current_session (fold_left step lines (MkState ctx [])) /\
  log_entries (fold_left step lines (MkState ctx es))
    = (es ++ log_entries (fold_left step lines (MkState ctx [])))%list.
Proof.
  induction lines as [|line lines IH]; intros ctx es.
  - cbn. by rewrite app_nil_r.
  - cbn [fold_left]. destruct (Ref.timestamp_led line) eqn:Hts.
    + rewrite !step_timestamp by done. cbn zeta.
      cbn [current_session log_entries].
      destruct (is_call_end line).
      * destruct (IH ∅ (es ++ [make_entry (String.substring 0 12 line) line
                                 (update_session line ctx)])%list) as [H1 H2].
        destruct (IH ∅ ([] ++ [make_entry (String.substring 0 12 line) line
                                 (update_session line ctx)])%list) as [H3 H4].
        rewrite H1, H2, H3, H4. by rewrite <- app_assoc.
      * apply IH.
    + rewrite !step_no_timestamp by done. apply IH.
Qed.

End Scan.

(** X1: the scan only appends: the entries held before are kept in front,
    in order, and the number of records added is the number of lines that
    begin with a timestamp and carry a call-end marker; in particular a
    log without such a line adds nothing (no flush at the end of input). *)
Theorem X1_scan_appends_one_per_call_end
    (entries : list SIP2.call_record) (lines : list string) :
  exists new,
    SIP2.log_entries (SIP2.parse_lines entries lines) = (entries ++ new)%list /\
    length new = length (List.filter Facts.emits lines).
Proof.
  destruct (scan_invariant (fun _ => True) (fun _ => True) I
              (fun _ _ _ => I) (fun _ _ _ _ => I) lines
              (SIP2.MkState ∅ entries) I) as (new & Hlog & Hlen & _).
  exists new. by split.
Qed.

(** X2: every record the scan adds has as end time a twelve-character
    HH:MM:SS.mmm timestamp, so no added record has an empty end time. *)
Theorem X2_end_time_is_timestamp
    (entries : list SIP2.call_record) (lines : list string) :
  exists new,
    SIP2.log_entries (SIP2.parse_lines entries lines) = (entries ++ new)%list /\
    Forall (fun r => Ref.timestamp_led (SIP2.call_end_time r) = true /\
                     String.length (SIP2.call_end_time r) = 12) new.
Proof.
  destruct (scan_invariant (fun _ => True)
              (fun r => Ref.timestamp_led (SIP2.call_end_time r) = true /\
                        String.length (SIP2.call_end_time r) = 12)
              I (fun _ _ _ => I)) with (lines := lines)
              (st := SIP2.MkState ∅ entries)
    as (new & Hlog & _ & HP & _); [|done|by exists new].
  intros ctx line _ [Hts _]%andb_true_iff. cbn [SIP2.make_entry SIP2.call_end_time].
  by apply timestamp_prefix.
Qed.

(** X3: nothing ever stores a duration in the session context, so the
    Duration field of every record the scan adds is the empty string. *)
Theorem X3_duration_always_empty
    (entries : list SIP2.call_record) (lines : list string) :
  exists new,
    SIP2.log_entries (SIP2.parse_lines entries lines) = (entries ++ new)%list /\
    Forall (fun r => SIP2.duration r = "") new.
Proof.
  destruct (scan_invariant
              (fun ctx : gmap string string => ctx !! "duration" = None)
              (fun r => SIP2.duration r = "")) with (lines := lines)
              (st := SIP2.MkState ∅ entries)
    as (new & Hlog & _ & HP & _); [done| | |done|by exists new].
  - intros ctx line. apply update_session_duration.
  - intros ctx line Hctx _. cbn [SIP2.make_entry SIP2.duration].
    unfold SIP2.get. by rewrite update_session_duration.
Qed.

(** X4: a call end isolates what follows: the records for the lines after
    a line that emits are those of scanning these lines alone, whatever
    came before. *)
Theorem X4_call_end_isolates
    (entries : list SIP2.call_record) (before after : list string)
    (line : string) :
  Facts.emits line = true ->
  SIP2.log_entries (SIP2.parse_lines entries (before ++ line :: after))
  = (SIP2.log_entries (SIP2.parse_lines entries (before ++ [line]))
     ++ SIP2.log_entries (SIP2.parse_lines [] after))%list.
Proof.
  intros He. unfold SIP2.parse_lines.
  rewrite !fold_left_app. cbn [fold_left].
  rewrite step_emits by done.
  apply scan_entries_irrelevant.
Qed.

Lemma X4_call_end_isolates_witness :
  SIP2.log_entries
    (SIP2.parse_lines []
       ["10:00:00.000 FROM: <a@x>"; "10:00:01.000 Released";
        "10:00:02.000 Call End"])
  = (SIP2.log_entries
       (SIP2.parse_lines []
          ["10:00:00.000 FROM: <a@x>"; "10:00:01.000 Released"])
     ++ SIP2.log_entries (SIP2.parse_lines [] ["10:00:02.000 Call End"]))%list.
Proof.
  apply (X4_call_end_isolates [] ["10:00:00.000 FROM: <a@x>"]
           ["10:00:02.000 Call End"] "10:00:01.000 Released").
  by vm_compute.
Defined.

(** ** What a group of one or more characters captures *)

Section Captures.
Import Re.

(** A successful repetition consumed between [lo] and all of the
    characters, and its continuation succeeded on the rest. *)
Lemma rep_sound s : forall p greedy lo hi pos k m,
  rep p greedy lo hi pos s k = Some m ->
  exists n, (lo <= n <= String.length s)%nat /\
            k (pos + n)%nat (Str.drop n s) = Some m.
Proof.
  induction s as [|c s IH]; intros p greedy lo hi pos k m H.
  - cbn [rep] in H.
    assert (match lo with O => k pos "" | S _ => None end = Some m) as Hstop.
    { cbv zeta in H. destruct greedy.
      - exact H.
      - by rewrite or_else_none_r in H. }
    destruct lo; [|discriminate]. exists 0%nat.
    rewrite Nat.add_0_r. split; [cbn; lia | exact Hstop].
  - cbn [rep] in H.
    set (stop := match lo with O => k pos (String c s) | S _ => None end) in H.
    set (more := if p c && may_repeat hi
                 then rep p greedy (pred lo) (one_less hi) (S pos) s k
                 else None) in H.
    assert (more = Some m \/ stop = Some m) as [Hm|Hs].
    { cbv zeta in H. fold stop more in H.
      destruct greedy, more, stop; cbn in H; auto. }
    + subst more. destruct (p c && may_repeat hi); [|discriminate].
      apply IH in Hm as (n & Hn & Hk). exists (S n).
      split; [cbn [String.length]; lia|].
      cbn [Str.drop]. by rewrite Nat.add_succ_r.
    + subst stop. destruct lo; [|discriminate]. exists 0%nat.
      rewrite Nat.add_0_r. split; [cbn; lia | exact Hs].
Qed.

Lemma substring_nonempty n s :
  (1 <= n <= String.length s)%nat -> String.substring 0 n s <> "".
Proof.
  destruct s as [|c s]; cbn [String.length]; [lia|].
  destruct n; [lia|]. done.
Qed.

(** A pattern [literal (one or more characters) tail], where the tail
    leaves the group alone, captures a non-empty text. *)
Lemma exec_group_nonempty lit p greedy lo hi tail pos s m :
  (forall pos' s' cap m',
     exec tail pos' s' cap (fun e _ cap' => Some (MkMatch e cap')) = Some m' ->
     m_group1 m' = cap) ->
  match_at (Seq (Lit lit) (Seq (Grp (Rep p greedy (S lo) hi)) tail)) pos s
    = Some m ->
  exists c, m_group1 m = Some c /\ c <> "".
Proof.
  intros Htail. unfold match_at. cbn [exec].
  destruct (Str.strip_prefix lit s) as [s1|]; [|discriminate].
  intros H. apply rep_sound in H as (n & Hn & H).
  apply Htail in H. eexists. split; [exact H|].
  replace (pos + String.length lit + n - (pos + String.length lit))%nat
    with n by lia.
  apply substring_nonempty. lia.
Qed.

Lemma search_group_nonempty r :
  (forall pos s m, match_at r pos s = Some m ->
     exists c, m_group1 m = Some c /\ c <> "") ->
  forall s m, re_search r s = Some m -> group1 m <> "".
Proof.
  intros Hr s m. unfold re_search. generalize 0%nat as pos.
  induction s as [|c s IH]; intros pos H; cbn [search_from] in H.
  - destruct (match_at r pos "") eqn:E; [|discriminate].
    injection H as ->. apply Hr in E as (c & Hc & Hne).
    unfold group1. by rewrite Hc.
  - destruct (match_at r pos (String c s)) eqn:E.
    + injection H as ->. apply Hr in E as (x & Hc & Hne).
      unfold group1. by rewrite Hc.
    + by apply (IH (S pos)).
Qed.

Lemma lit_keeps_group l pos s cap m :
  exec (Lit l) pos s cap (fun e _ cap' => Some (MkMatch e cap')) = Some m ->
  m_group1 m = cap.
Proof.
  cbn [exec]. destruct (Str.strip_prefix l s); [|discriminate].
  by intros [= <-].
Qed.

Lemma eol_keeps_group pos s cap m :
  exec Eol pos s cap (fun e _ cap' => Some (MkMatch e cap')) = Some m ->
  m_group1 m = cap.
Proof.
  cbn [exec]. destruct (_ || _); [|discriminate]. by intros [= <-].
Qed.

Lemma from_group_nonempty s m :
  re_search SIP2.from_re s = Some m -> group1 m <> "".
Proof.
  apply search_group_nonempty. intros pos s' m'.
  apply exec_group_nonempty. apply lit_keeps_group.
Qed.

Lemma to_group_nonempty s m :
  re_search SIP2.to_re s = Some m -> group1 m <> "".
Proof.
  apply search_group_nonempty. intros pos s' m'.
  apply exec_group_nonempty. apply lit_keeps_group.
Qed.

Lemma reason_group_nonempty s m :
  re_search SIP2.term_reason_re s = Some m -> group1 m <> "".
Proof.
  apply search_group_nonempty. intros pos s' m'.
  apply exec_group_nonempty. apply eol_keeps_group.
Qed.

(** No empty caller, callee or termination reason is ever stored. *)
Lemma update_session_nonempty line ctx :
  (forall key v, ctx !! key = Some v -> v <> "") ->
  forall key v, SIP2.update_session line ctx !! key = Some v -> v <> "".
Proof.
  intros Hctx.
  assert (forall (m : gmap string string) k x,
            x <> "" ->
            (forall key v, m !! key = Some v -> v <> "") ->
            forall key v, <[k := x]> m !! key = Some v -> v <> "") as Hins.
  { intros m k x Hx Hm key v. destruct (decide (k = key)) as [->|Hne].
    - rewrite lookup_insert_eq. by intros [= <-].
    - rewrite lookup_insert_ne by done. apply Hm. }
  unfold SIP2.update_session, SIP2.update_reason, SIP2.update_callee,
    SIP2.update_caller.
  destruct (re_search SIP2.term_reason_re line) as [mr|] eqn:Er;
    destruct (Str.contains "TO:" line);
    destruct (re_search SIP2.to_re line) as [mt|] eqn:Et;
    destruct (Str.contains "FROM:" line);
    destruct (re_search SIP2.from_re line) as [mf|] eqn:Ef;
    repeat first
      [ exact Hctx
      | apply Hins;
        [ first [ exact (reason_group_nonempty _ _ Er)
                | exact (to_group_nonempty _ _ Et)
                | exact (from_group_nonempty _ _ Ef) ] | ] ].
Qed.

End Captures.

(** X5: the caller, callee and termination reason kept in the session
    context are never empty texts ([.+?] needs a character), so the
    termination reason of every record the scan adds is non-empty: it is
    "Normal" or a captured reason of at least one character. *)
Theorem X5_termination_reason_nonempty
    (entries : list SIP2.call_record) (lines : list string) :
  exists new,
    SIP2.log_entries (SIP2.parse_lines entries lines) = (entries ++ new)%list /\
    Forall (fun r => SIP2.termination_reason r <> "") new.
Proof.
  destruct (scan_invariant
              (fun ctx : gmap string string =>
                 forall key v, ctx !! key = Some v -> v <> "")
              (fun r => SIP2.termination_reason r <> "")) with (lines := lines)
              (st := SIP2.MkState ∅ entries)
    as (new & Hlog & _ & HP & _); [done| | |done|by exists new].
  - intros ctx line. apply update_session_nonempty.
  - intros ctx line Hctx _. cbn [SIP2.make_entry SIP2.termination_reason].
    unfold SIP2.get.
    destruct (SIP2.update_session line ctx !! "termination_reason")
      as [v|] eqn:E; cbn [default]; [|done].
    by apply (update_session_nonempty line ctx Hctx _ _ E).
Qed.

(** ** The fields of SIP.py *)

Section Fields.
Import Re.

(** A pattern anchored with [^] matches at the start of the text only. *)
Lemma search_bol_later r s : forall pos,
  search_from (Seq Bol r) (S pos) s = None.
Proof.
  induction s as [|c s IH]; intros pos; cbn [search_from];
    unfold match_at; cbn [exec or_else]; [done | apply IH].
Qed.

Lemma search_timestamp line :
  re_search (Seq Bol (Grp hms_millis)) line =
  if Ref.timestamp_led line
  then Some (MkMatch 12 (Some (String.substring 0 12 line)))
  else None.
Proof.
  unfold re_search.
  assert (match_at (Seq Bol (Grp hms_millis)) 0 line =
          if Ref.timestamp_led line
          then Some (MkMatch 12 (Some (String.substring 0 12 line)))
          else None) as H0.
  { unfold match_at. cbn [exec]. rewrite exec_hms_millis.
    by destruct (Ref.timestamp_led line). }
  destruct line as [|c line]; cbn [search_from]; rewrite H0.
  - done.
  - rewrite search_bol_later. apply or_else_none_r.
Qed.

(** What a match of [SIP/2\.0 (\d{3})] captures. *)
Lemma status_match_digits pos s m :
  match_at SIP.status_re pos s = Some m ->
  Facts.all_digits (group1 m) = true /\ String.length (group1 m) = 3.
Proof.
  unfold match_at, SIP.status_re, digits. cbn [exec].
  destruct (Str.strip_prefix "SIP/2.0 " s) as [s1|]; [|discriminate].
  destruct s1 as [|a s1]; [by rewrite rep_exact_nil|].
  rewrite rep_exact_step. destruct (Chars.is_digit a) eqn:Ha; [|discriminate].
  destruct s1 as [|b s1]; [by rewrite rep_exact_nil|].
  rewrite rep_exact_step. destruct (Chars.is_digit b) eqn:Hb; [|discriminate].
  destruct s1 as [|c s1]; [by rewrite rep_exact_nil|].
  rewrite rep_exact_step. destruct (Chars.is_digit c) eqn:Hc; [|discriminate].
  rewrite rep_exact_done. intros [= <-]. unfold group1. cbn [m_group1 default].
  match goal with
  | |- context [match (?x - ?y)%nat with O => _ | S _ => _ end] =>
      replace (x - y)%nat with 3%nat by lia
  end.
  destruct s1; cbn; by rewrite Ha, Hb, Hc.
Qed.

Lemma search_group_prop r (Q : string -> Prop) :
  (forall pos s m, match_at r pos s = Some m -> Q (group1 m)) ->
  forall s m, re_search r s = Some m -> Q (group1 m).
Proof.
  intros Hr s m. unfold re_search. generalize 0%nat as pos.
  induction s as [|c s IH]; intros pos H; cbn [search_from] in H.
  - destruct (match_at r pos "") eqn:E; [|discriminate].
    injection H as ->. by apply Hr in E.
  - destruct (match_at r pos (String c s)) eqn:E.
    + injection H as ->. by apply Hr in E.
    + by apply (IH (S pos)).
Qed.

Lemma parse_log_line_timestamp line :
  SIP.parse_log_line line !! "timestamp" =
  Some (if Ref.timestamp_led line then String.substring 0 12 line else "").
Proof.
  rewrite (parse_log_line_pattern line "timestamp" (Seq Bol (Grp hms_millis))).
  - rewrite search_timestamp. by destruct (Ref.timestamp_led line).
  - by left.
Qed.

End Fields.

(** X6: the timestamp field of a block is its first twelve characters
    when the block begins with an HH:MM:SS.mmm timestamp, and the empty
    string otherwise; a timestamp further inside the block is not
    extracted. *)
Theorem X6_timestamp_field (line : string) :
  SIP.parse_log_line line !! "timestamp" =
  Some (if Ref.timestamp_led line then String.substring 0 12 line else "").
Proof. apply parse_log_line_timestamp. Qed.

(** X7: the status_code field of a block is either the empty string or
    exactly three decimal digits. *)
Theorem X7_status_code_three_digits (line : string) :
  exists v, SIP.parse_log_line line !! "status_code" = Some v /\
    (v = "" \/ Facts.all_digits v = true /\ String.length v = 3).
Proof.
  eexists. split; [apply parse_log_line_status|].
  destruct (Re.re_search SIP.status_re line) as [m|] eqn:E; [right | by left].
  cbn [SIP.group1_or_empty].
  by apply (search_group_prop SIP.status_re
              (fun v => Facts.all_digits v = true /\ String.length v = 3)
              status_match_digits line).
Qed.

(** ** The Statistics sheet of SIP.py *)

Section Statistics.
Import SIP.

Lemma length_filter_step {A} (f : A -> bool) x l :
  length (List.filter f (x :: l))
  = ((if f x then 1 else 0) + length (List.filter f l))%nat.
Proof. cbn [List.filter]. by destruct (f x). Qed.

(** A row has exactly one of the three directions. *)
Lemma row_direction_once line :
  ((if bool_decide (parse_log_line line !! "direction" = Some "Incoming")
    then 1 else 0)
   + (if bool_decide (parse_log_line line !! "direction" = Some "Outgoing")
      then 1 else 0)
   + (if bool_decide (parse_log_line line !! "direction" = Some "Internal")
      then 1 else 0) = 1)%nat.
Proof.
  rewrite parse_log_line_direction. unfold direction_of.
  destruct (Str.contains "Incoming SIP Message" line);
    [|destruct (Str.contains "Outgoing SIP Message" line)];
    by vm_compute.
Qed.

(** A text starts with at most one of "2", "4" and "5". *)
Lemma one_leading_digit (o : option string) :
  ((if match o with Some v => Str.startswith v "2" | None => false end
    then 1 else 0)
   + (if match o with Some v => Str.startswith v "4" | None => false end
      then 1 else 0)
   + (if match o with Some v => Str.startswith v "5" | None => false end
      then 1 else 0) <= 1)%nat.
Proof.
  destruct o as [[|c v]|]; [vm_compute; lia| |vm_compute; lia].
  unfold Str.startswith. cbn [Str.strip_prefix].
  destruct (Ascii.eqb_spec "2" c) as [<-|?]; [vm_compute; lia|].
  destruct (Ascii.eqb_spec "4" c) as [<-|?]; [vm_compute; lia|].
  destruct (Ascii.eqb_spec "5" c) as [<-|?]; vm_compute; lia.
Qed.

Lemma size_list_to_set_le (l : list string) :
  (size (list_to_set l : gset string) <= length l)%nat.
Proof.
  induction l as [|x l IH]; [by rewrite list_to_set_nil, size_empty|].
  rewrite list_to_set_cons, size_union_alt, size_singleton.
  assert (size (list_to_set l ∖ {[x]} : gset string)
          <= size (list_to_set l : gset string))%nat as Hle.
  { by apply subseteq_size, subseteq_difference_l. }
  cbn [length]. lia.
Qed.

Lemma length_omap_le {A B} (f : A -> option B) (l : list A) :
  (length (omap f l) <= length l)%nat.
Proof.
  induction l as [|x l IH]; [done|]. cbn [omap list_omap length].
  fold (omap f l). destruct (f x); cbn [length]; lia.
Qed.

Lemma nunique_le key (df : list (gmap string string)) :
  (nunique key df <= length df)%nat.
Proof.
  unfold nunique.
  pose proof (size_list_to_set_le
                (omap (fun row : gmap string string => row !! key) df)).
  pose proof (length_omap_le
                (fun row : gmap string string => row !! key) df).
  lia.
Qed.

End Statistics.

(** X8: in the Statistics sheet computed from parsed blocks, the incoming,
    outgoing and internal counts add up to the total number of messages;
    the 2xx, 4xx and 5xx response counts together do not exceed it, and
    neither does the number of unique sessions. *)
Theorem X8_statistics_partition (blocks : list string) :
  let stats := SIP.stats_counts (map SIP.parse_log_line blocks) in
  (SIP.incoming_messages stats + SIP.outgoing_messages stats
   + SIP.internal_messages stats = SIP.total_messages stats)%nat /\
  (SIP.success_responses stats + SIP.client_errors stats
   + SIP.server_errors stats <= SIP.total_messages stats)%nat /\
  (SIP.unique_sessions stats <= SIP.total_messages stats)%nat.
Proof.
  cbn zeta. unfold SIP.stats_counts.
  cbn [SIP.incoming_messages SIP.outgoing_messages SIP.internal_messages
       SIP.total_messages SIP.success_responses SIP.client_errors
       SIP.server_errors SIP.unique_sessions].
  split; [|split; [|apply nunique_le]].
  - unfold SIP.count_eq. induction blocks as [|b blocks IH]; [done|].
    cbn [map]. rewrite !length_filter_step. cbn [length].
    pose proof (row_direction_once b). lia.
  - unfold SIP.count_startswith. induction blocks as [|b blocks IH]; [done|].
    cbn [map]. rewrite !length_filter_step. cbn [length].
    pose proof (one_leading_digit (SIP.parse_log_line b !! "status_code")).
    lia.
Qed.

(** ** The name of the output workbook (SIP.py, SIP2.py) *)

Section OutputName.

Lemma has_char_app c a b :
  Str.has_char c (a ++ b) = Str.has_char c a || Str.has_char c b.
Proof.
  induction a as [|x a IH]; [done|].
  rewrite append_cons. cbn [Str.has_char]. by rewrite IH, orb_assoc.
Qed.

(** With no dot in the name nothing is cut. *)
Lemma rsplit_no_dot s : Str.has_char "." s = false -> Str.rsplit_dot_head s = s.
Proof.
  induction s as [|c s IH]; [done|]. cbn [Str.has_char Str.rsplit_dot_head].
  intros [Hc Hs]%orb_false_iff. rewrite Hc. cbn [andb]. by rewrite IH.
Qed.

(** The cut is at the last dot. *)
Lemma rsplit_last_dot stem ext :
  Str.has_char "." ext = false ->
  Str.rsplit_dot_head (stem ++ "." ++ ext) = stem.
Proof.
  intros Hext. induction stem as [|c stem IH].
  - rewrite append_nil_l, append_cons, append_nil_l.
    cbn [Str.rsplit_dot_head]. by rewrite Hext.
  - rewrite append_cons. cbn [Str.rsplit_dot_head]. rewrite IH.
    rewrite has_char_app. cbn [Str.has_char Ascii.eqb].
    replace (Ascii.eqb "." ".") with true by done.
    by rewrite orb_true_r, andb_false_r.
Qed.

End OutputName.

(** X9: the output workbook is named after the input by cutting at the
    last dot of the whole path and appending "_analysis.xlsx": a path
    [stem.ext] with no dot in [ext] gives [stem_analysis.xlsx], and a path
    without any dot gives [path_analysis.xlsx].  The cut does not look at
    directory separators, so an extensionless file in a dotted directory,
    [dir.d/log], is written to [dir_analysis.xlsx]. *)
Theorem X9_output_file_name :
  (forall stem ext, Str.has_char "." ext = false ->
     SIP.output_file (stem ++ "." ++ ext) = stem ++ "_analysis.xlsx" /\
     SIP2.output_file (stem ++ "." ++ ext) = stem ++ "_analysis.xlsx") /\
  (forall path, Str.has_char "." path = false ->
     SIP.output_file path = path ++ "_analysis.xlsx" /\
     SIP2.output_file path = path ++ "_analysis.xlsx") /\
  (forall dir d file, Str.has_char "." (d ++ "/" ++ file) = false ->
     SIP.output_file (dir ++ "." ++ d ++ "/" ++ file) = dir ++ "_analysis.xlsx").
Proof.
  unfold SIP.output_file, SIP2.output_file. split; [|split].
  - intros stem ext H. by rewrite rsplit_last_dot.
  - intros path H. by rewrite rsplit_no_dot.
  - intros dir d file H. by rewrite rsplit_last_dot.
Qed.

Lemma X9_output_file_name_witness :
  SIP.output_file "logs/sbc.2024.txt" = "logs/sbc.2024_analysis.xlsx" /\
  SIP.output_file "run.1/syslog" = "run_analysis.xlsx".
Proof.
  destruct X9_output_file_name as (Hext & _ & Hdir). split.
  - by apply (Hext "logs/sbc.2024" "txt").
  - by apply (Hdir "run" "1" "syslog").
Defined.

(** ** Blocks and fields together (SIP.py) *)

Section BlocksAndFields.

Lemma substring_none (x : string) : String.substring 0 0 x = "".
Proof. by destruct x. Qed.

Lemma timestamp_of_app s r :
  Ref.timestamp_led s = true ->
  String.substring 0 12 (s ++ r) = String.substring 0 12 s.
Proof.
  do 12 (destruct s as [|? s]; [discriminate|]). intros _.
  rewrite !append_cons. cbn [String.substring].
  by rewrite !substring_none.
Qed.

Lemma kept_of_groups text groups :
  Str.split_lines text = concat (map Ref.group_lines groups) ->
  Forall Ref.well_formed groups ->
  SIP.kept_messages text = map Ref.block_of groups.
Proof.
  intros Hlines Hg. unfold SIP.kept_messages, SIP.segment.
  rewrite Hlines.
  change (concat (map Ref.group_lines groups))
    with ([] ++ concat (map Ref.group_lines groups))%list.
  rewrite (segment_lines_spec [] groups) by (constructor || done).
  unfold Ref.blocks_of. cbn [app]. apply filter_all_true. clear Hlines.
  induction Hg as [|g groups Hwf _ IH]; constructor.
  - by apply timestamp_led_not_blank, block_of_timestamp_led.
  - exact IH.
Qed.

End BlocksAndFields.

(** X10: for a log made of N groups, each a timestamp-led line followed by
    lines that are not, [analyze_logs] builds N records, in the order of
    the groups, and the timestamp field of the i-th record is the
    timestamp (the first twelve characters) of the i-th group's first
    line; no record has an empty timestamp. *)
Theorem X10_one_record_per_group (text : string) (groups : list Ref.group) :
  Str.split_lines text = concat (map Ref.group_lines groups) ->
  Forall Ref.well_formed groups ->
  length (SIP.parsed_data text) = length groups /\
  map (fun entry : gmap string string => entry !! "timestamp")
      (SIP.parsed_data text)
  = map (fun g => Some (String.substring 0 12 (Ref.head_line g))) groups.
Proof.
  intros Hlines Hg. unfold SIP.parsed_data.
  rewrite (kept_of_groups text groups Hlines Hg).
  split; [by rewrite !length_map|].
  rewrite !map_map. clear Hlines.
  induction Hg as [|g groups Hwf _ IH]; [done|].
  cbn [map]. rewrite IH. f_equal.
  rewrite parse_log_line_timestamp, block_of_timestamp_led by done.
  destruct (block_of_head g) as [rest ->]. destruct Hwf as [Hhead _].
  by rewrite timestamp_of_app.
Qed.

Lemma X10_one_record_per_group_witness :
  map (fun entry : gmap string string => entry !! "timestamp")
      (SIP.parsed_data
         ("10:00:00.000 INVITE" ++ Str.nl ++ "FROM: <a@x>" ++ Str.nl ++
          "10:00:01.000 SIP/2.0 200 OK"))
  = [Some "10:00:00.000"; Some "10:00:01.000"].
Proof.
  destruct (X10_one_record_per_group
              ("10:00:00.000 INVITE" ++ Str.nl ++ "FROM: <a@x>" ++ Str.nl ++
               "10:00:01.000 SIP/2.0 200 OK")
              [ Ref.MkGroup "10:00:00.000 INVITE" ["FROM: <a@x>"];
                Ref.MkGroup "10:00:01.000 SIP/2.0 200 OK" [] ]) as [_ H].
  - by vm_compute.
  - repeat constructor.
  - rewrite H. by vm_compute.
Defined.

(** ** Integers and their decimal text *)

Section DecimalText.
Local Open Scope N_scope.

Lemma code_digit_char x : x < 10 -> Chars.code (Py.digit_char x) = 48 + x.
Proof.
  intros Hx. unfold Chars.code, Py.digit_char.
  apply N_ascii_embedding. lia.
Qed.

(** Reading back what [digits_acc] prints in front of [acc]. *)
Lemma value_digits_acc fuel : forall n acc a,
  n < 10 ^ N.of_nat (S fuel) ->
  exists k, Facts.value_from a (Py.digits_acc fuel n acc)
            = Facts.value_from (a * 10 ^ k + n) acc.
Proof.
  induction fuel as [|fuel IH]; intros n acc a Hn.
  - change (10 ^ N.of_nat 1) with 10 in Hn. exists 1.
    cbn [Py.digits_acc Facts.value_from].
    rewrite N.mod_small, code_digit_char by lia. f_equal.
    rewrite N.pow_1_r. lia.
  - cbn [Py.digits_acc].
    assert (n mod 10 < 10) as Hmod by (apply N.mod_lt; lia).
    pose proof (N.div_mod n 10 ltac:(lia)) as Hdm.
    destruct (N.eqb_spec (n / 10) 0) as [Hz|Hnz].
    + exists 1. cbn [Facts.value_from]. rewrite code_digit_char by lia.
      f_equal. rewrite N.pow_1_r. lia.
    + destruct (IH (n / 10) (String (Py.digit_char (n mod 10)) acc) a)
        as [k Hk].
      { apply N.Div0.div_lt_upper_bound.
        rewrite <- N.pow_succ_r'. by rewrite <- Nat2N.inj_succ. }
      exists (N.succ k). rewrite Hk. cbn [Facts.value_from].
      rewrite code_digit_char by lia. f_equal. rewrite N.pow_succ_r'.
      clear Hk IH Hn Hnz. generalize (10 ^ k). intros t.
      revert Hmod Hdm. generalize (n mod 10), (n / 10). intros r q Hr Hq.
      nia.
Qed.

Lemma value_str_nat n : Facts.value_from 0 (Py.str_nat n) = n.
Proof.
  unfold Py.str_nat.
  destruct (value_digits_acc (N.to_nat (N.log2 n)) n "" 0) as [k Hk].
  - rewrite Nat2N.inj_succ, N2Nat.id.
    destruct n as [|p]; [done|].
    pose proof (N.log2_spec (Npos p) ltac:(lia)) as [_ Hlt].
    assert (2 ^ N.succ (N.log2 (N.pos p)) <= 10 ^ N.succ (N.log2 (N.pos p)))
      by (apply N.pow_le_mono_l; lia).
    lia.
  - rewrite Hk. cbn [Facts.value_from]. lia.
Qed.

Lemma digits_acc_first fuel : forall n acc,
  exists x rest, x < 10 /\
    Py.digits_acc fuel n acc = String (Py.digit_char x) rest.
Proof.
  induction fuel as [|fuel IH]; intros n acc;
    assert (n mod 10 < 10) as Hmod by (apply N.mod_lt; lia).
  - cbn [Py.digits_acc]. eauto.
  - cbn [Py.digits_acc]. destruct (n / 10 =? 0); [eauto | apply IH].
Qed.

Lemma digit_char_not_minus x : x < 10 -> Py.digit_char x <> "-"%char.
Proof.
  intros Hx Heq. apply (f_equal Chars.code) in Heq.
  rewrite code_digit_char in Heq by done.
  change (Chars.code "-") with 45 in Heq. lia.
Qed.

(** Reading the text of an integer gives the integer back. *)
Lemma int_of_str_int z : Facts.int_of (Py.str_int z) = z.
Proof.
  destruct z as [|p|p]; [done| |].
  - cbn [Py.str_int]. unfold Py.str_nat.
    destruct (digits_acc_first (N.to_nat (N.log2 (N.pos p))) (N.pos p) "")
      as (x & rest & Hx & Hrest).
    pose proof (value_str_nat (N.pos p)) as Hval. unfold Py.str_nat in Hval.
    rewrite Hrest in *. unfold Facts.int_of.
    destruct (Ascii.eqb_spec (Py.digit_char x) "-") as [Heq|Hne].
    + by apply digit_char_not_minus in Heq.
    + assert (forall c rest', c <> "-"%char ->
                match String c rest' with
                | String "-" s' => (- Z.of_N (Facts.value_from 0 s'))%Z
                | _ => Z.of_N (Facts.value_from 0 (String c rest'))
                end = Z.of_N (Facts.value_from 0 (String c rest'))) as Hcase.
      { intros c rest' Hc.
        destruct c as [[] [] [] [] [] [] [] []]; try reflexivity.
        by destruct Hc. }
      rewrite Hcase by done. rewrite Hval. reflexivity.
  - cbn [Py.str_int]. rewrite append_cons, append_nil_l.
    unfold Facts.int_of. rewrite value_str_nat. reflexivity.
Qed.

Lemma str_int_eqb a b : String.eqb (Py.str_int a) (Py.str_int b) = Z.eqb a b.
Proof.
  destruct (Z.eqb_spec a b) as [->|Hne]; [apply String.eqb_refl|].
  apply String.eqb_neq. intros Heq. apply Hne.
  by rewrite <- (int_of_str_int a), <- (int_of_str_int b), Heq.
Qed.

End DecimalText.

(** ** Categories of TeasmLogsV2.py *)

Section Categories.
Import V2.

Lemma category_of_head d rest :
  (1 <= d <= 9)%N ->
  default "Unknown Category"
    (sip_categories !!
       (String.substring 0 1 (String (Py.digit_char d) rest) ++ "xx"))
  = Facts.category_of_digit d.
Proof.
  intros Hd.
  assert (String.substring 0 1 (String (Py.digit_char d) rest)
          = String (Py.digit_char d) "") as -> by (by destruct rest).
  assert (d = 1 \/ d = 2 \/ d = 3 \/ d = 4 \/ d = 5 \/ d = 6 \/ d = 7
          \/ d = 8 \/ d = 9)%N as Hcases by lia.
  repeat (destruct Hcases as [-> | Hcases]; [by vm_compute|]).
  subst. by vm_compute.
Qed.

Lemma mem_string_str_int z (codes : list Z) :
  mem_string (Py.str_int z) (map Py.str_int codes) = existsb (Z.eqb z) codes.
Proof.
  unfold mem_string. induction codes as [|c codes IH]; [done|].
  cbn [map existsb]. by rewrite str_int_eqb, IH.
Qed.

Lemma first_category_str_int z (cats : list (string * list Z)) :
  first_category (Py.str_int z)
    (map (fun cat => (fst cat, map Py.str_int (snd cat))) cats)
  = Facts.category_of z cats.
Proof.
  induction cats as [|[name codes] cats IH]; [done|].
  cbn [map fst snd first_category Facts.category_of].
  by rewrite mem_string_str_int, IH.
Qed.

Lemma error_categories_as_text :
  error_categories
  = map (fun cat => (fst cat, map Py.str_int (snd cat)))
        Facts.error_category_codes.
Proof. by vm_compute. Qed.

Lemma get_error_category_spec code :
  get_error_category code = Facts.category_of code Facts.error_category_codes.
Proof.
  unfold get_error_category.
  by rewrite error_categories_as_text, first_category_str_int.
Qed.

(** The row loop on rows of integers. *)
Lemma process_rows_integers rs :
  Forall Facts.integer_row rs ->
  exists results,
    process_rows rs = inl results /\
    map Some results = map Facts.result_of rs.
Proof.
  induction 1 as [|r rs [[code Hc] [sub Hs]] _ (results & Hres & Hmap)].
  - by exists [].
  - eexists. cbn [process_rows]. rewrite Hc, Hs, Hres. split; [reflexivity|].
    cbn [map]. unfold Facts.result_of at 1. by rewrite Hc, Hs, Hmap.
Qed.

(** The row loop stops at the first row with a cell that is no integer. *)
Lemma process_rows_first_error good bad rest e :
  Forall Facts.integer_row good ->
  Facts.row_error bad = Some e ->
  process_rows (good ++ bad :: rest) = inr e.
Proof.
  intros Hgood Hbad.
  induction Hgood as [|r rs [[code Hc] [sub Hs]] _ IH].
  - cbn [app process_rows]. unfold Facts.row_error in Hbad.
    destruct (final_sip_code bad), (final_microsoft_subcode bad);
      congruence.
  - cbn [app process_rows]. by rewrite Hc, Hs, IH.
Qed.

Lemma missing_fields_nil cols :
  (forall f, In f required_fields -> In f cols) -> missing_fields cols = [].
Proof.
  intros Hall. destruct (missing_fields cols) as [|f fs] eqn:E; [done|].
  assert (In f (missing_fields cols)) as Hin by (rewrite E; by left).
  apply missing_fields_spec in Hin as [Hreq Hnot]. by apply Hall in Hreq.
Qed.

End Categories.

(** X11: the category that TeasmLogsV2.py reports is chosen by the first
    character of the code's decimal text: a code whose leading digit is 1
    to 6 is Provisional, Success, Redirection, Client Error, Server Error
    or Global Failure, also when it is not a three-digit code (so 15 and
    1000 are Provisional); a leading digit 7 to 9, zero and negative codes
    give "Unknown Category". *)
Theorem X11_category_by_leading_digit :
  (forall (n d : N) subcode phrase, Ref.leading_digit n d ->
     V2.d_category (snd (V2.explain_sip (Z.of_N n) subcode phrase))
     = Facts.category_of_digit d) /\
  (forall z subcode phrase, (z <= 0)%Z ->
     V2.d_category (snd (V2.explain_sip z subcode phrase))
     = "Unknown Category").
Proof.
  split.
  - intros n d subcode phrase H.
    destruct (str_nat_head n d H) as [rest Hrest].
    destruct H as [Hd (k & Hn)].
    assert (0 < n)%N as Hpos.
    { assert (0 < 10 ^ k)%N by (apply N.neq_0_lt_0, N.pow_nonzero; lia). nia. }
    destruct n as [|p]; [lia|].
    unfold V2.explain_sip. cbn [snd V2.d_category].
    unfold V2.category_prefix. cbn [Z.of_N Py.str_int]. rewrite Hrest.
    by apply category_of_head.
  - intros z subcode phrase Hz. unfold V2.explain_sip.
    cbn [snd V2.d_category]. unfold V2.category_prefix.
    destruct z as [|p|p]; [by vm_compute | lia |].
    cbn [Py.str_int]. rewrite append_cons, append_nil_l.
    assert (String.substring 0 1 (String "-" (Py.str_nat (N.pos p))) = "-")
      as -> by (by destruct (Py.str_nat (N.pos p))).
    by vm_compute.
Qed.

Lemma X11_category_by_leading_digit_witness :
  V2.d_category (snd (V2.explain_sip 1000 0 "x")) = "Provisional".
Proof.
  assert (Ref.leading_digit 1000 1) as H.
  { split; [lia|]. exists 3%N. by vm_compute. }
  exact (proj1 X11_category_by_leading_digit 1000%N 1%N 0%Z "x" H).
Defined.

(** X12: the error category, found by looking the decimal text of the
    code up in lists of texts, is the category of the integer code: the
    first of Authentication, Routing, Capacity, Protocol, Network and
    Configuration whose list holds the code, else "Uncategorized".  The
    code 502, listed under Routing and Network, is Routing, so Network is
    returned for 408, 483 and 500 only; every code below 400 or above 606
    is Uncategorized. *)
Theorem X12_error_category_by_value :
  (forall code,
     V2.get_error_category code
     = Facts.category_of code Facts.error_category_codes) /\
  (forall code,
     V2.get_error_category code = "Network"
     <-> code = 408%Z \/ code = 483%Z \/ code = 500%Z) /\
  (forall code, (code < 400 \/ 606 < code)%Z ->
     V2.get_error_category code = "Uncategorized").
Proof.
  split; [apply get_error_category_spec|]. split.
  - intros code. rewrite get_error_category_spec.
    unfold Facts.category_of, Facts.error_category_codes. cbn [existsb].
    repeat match goal with
           | |- context [Z.eqb code ?c] =>
               destruct (Z.eqb_spec code c) as [->|?];
               [vm_compute; split; intros H;
                first [reflexivity | discriminate H | lia]|]
           end.
    cbn [orb]. split; intros H; first [discriminate H | lia].
  - intros code Hcode. rewrite get_error_category_spec.
    unfold Facts.category_of, Facts.error_category_codes. cbn [existsb].
    repeat match goal with
           | |- context [Z.eqb code ?c] =>
               destruct (Z.eqb_spec code c); [lia|]
           end.
    reflexivity.
Qed.

(** *** The grouping of the enhanced sheet *)

Section Grouping.
Import V2.

Lemma count_label_app label l1 l2 :
  count_label label (l1 ++ l2)%list
  = (count_label label l1 + count_label label l2)%nat.
Proof. unfold count_label. by rewrite List.filter_app, List.length_app. Qed.

Lemma count_label_absent label l :
  ~ In label l -> count_label label l = 0%nat.
Proof.
  unfold count_label. induction l as [|x l IH]; [done|]. intros Hnot.
  cbn [List.filter]. destruct (String.eqb_spec label x) as [->|_].
  - destruct Hnot. by left.
  - apply IH. intros Hin. apply Hnot. by right.
Qed.

Lemma count_label_once label l :
  List.NoDup l -> In label l -> count_label label l = 1%nat.
Proof.
  induction 1 as [|x l Hx Hl IH]; [done|]. intros [->|Hin].
  - unfold count_label. cbn [List.filter]. rewrite String.eqb_refl.
    cbn [length]. f_equal. by apply count_label_absent.
  - unfold count_label. cbn [List.filter].
    destruct (String.eqb_spec label x) as [->|_]; [done|]. by apply IH.
Qed.

(** Grouping passes when the sheet has rows and no column of its own
    named [error_category]. *)
Lemma groupby_passes data r results :
  List.NoDup (columns data) ->
  In "Final SIP code" (columns data) ->
  ~ In "error_category" (columns data) ->
  groupby_error (enhanced_columns data (r :: results)) = None.
Proof.
  intros Hnd Hcode Hnot. unfold groupby_error, grouper, enhanced_columns.
  rewrite !count_label_app, (count_label_absent _ _ Hnot),
    (count_label_once _ _ Hnd Hcode).
  reflexivity.
Qed.

(** Without a row there is no column [error_category] to group by. *)
Lemma groupby_no_rows data :
  ~ In "error_category" (columns data) ->
  groupby_error (enhanced_columns data []) = Some "'error_category'".
Proof.
  intros Hnot. unfold groupby_error, grouper, enhanced_columns.
  rewrite app_nil_r, (count_label_absent _ _ Hnot). reflexivity.
Qed.

(** A column [error_category] of the sheet meets the one of the results. *)
Lemma groupby_twice data r results :
  List.NoDup (columns data) ->
  In "error_category" (columns data) ->
  groupby_error (enhanced_columns data (r :: results))
  = Some "Grouper for 'error_category' not 1-dimensional".
Proof.
  intros Hnd Hin. unfold groupby_error, grouper, enhanced_columns.
  rewrite count_label_app, (count_label_once _ _ Hnd Hin). reflexivity.
Qed.

End Grouping.

(** X13: a sheet with the five required columns, distinct column labels
    and integers in every code and subcode cell.  If it has at least one
    row and no column of its own named [error_category], [process_file]
    succeeds and writes one result per row, in the order of the rows,
    each the explanation of its row, and the message names the output
    path.  If it has no row (and no such column), grouping by
    [error_category] raises [KeyError] and the call fails with that text;
    if it has rows and a column [error_category], the grouping fails too:
    in both cases nothing is written. *)
Theorem X13_process_file_success (data : V2.table) (output_path : string) :
  List.NoDup (V2.columns data) ->
  (forall f, In f V2.required_fields -> In f (V2.columns data)) ->
  Forall Facts.integer_row (V2.rows data) ->
  let out := V2.process_file (V2.Loaded data) output_path in
  (V2.rows data <> [] -> ~ In "error_category" (V2.columns data) ->
   exists results,
     out = V2.MkOutcome true
             ("Successfully processed file. Output saved to: " ++ output_path)
             (Some results) /\
     length results = length (V2.rows data) /\
     map Some results = map Facts.result_of (V2.rows data)) /\
  (V2.rows data = [] -> ~ In "error_category" (V2.columns data) ->
   out = V2.MkOutcome false "Error processing file: 'error_category'" None) /\
  (V2.rows data <> [] -> In "error_category" (V2.columns data) ->
   V2.success out = false /\ V2.written out = None).
Proof.
  intros Hnd Hcols Hrows. cbn zeta. unfold V2.process_file.
  rewrite missing_fields_nil by done.
  destruct (process_rows_integers _ Hrows) as (results & Hres & Hmap).
  rewrite Hres.
  assert (length results = length (V2.rows data)) as Hlen.
  { apply (f_equal length) in Hmap. by rewrite !length_map in Hmap. }
  assert (In "Final SIP code" (V2.columns data)) as Hcode.
  { apply Hcols. apply mem_string_spec. by vm_compute. }
  split; [|split].
  - intros Hne Hnot. exists results.
    destruct results as [|r results].
    { destruct (V2.rows data); [done | discriminate Hlen]. }
    by rewrite groupby_passes.
  - intros Hnil Hnot. rewrite Hnil in Hlen.
    destruct results; [|discriminate Hlen].
    by rewrite groupby_no_rows.
  - intros Hne Hin.
    destruct results as [|r results].
    { destruct (V2.rows data); [done | discriminate Hlen]. }
    by rewrite groupby_twice.
Qed.

Lemma X13_process_file_success_witness :
  exists results,
    V2.process_file
      (V2.Loaded
         (V2.MkTable
            ["UPN"; "Display Name"; "Final SIP code";
             "Final Microsoft subcode"; "Final SIP Phrase"]
            [V2.MkRow (inl 404%Z) (inl 560404%Z) "Not Found"]))
      "out.xlsx"
    = V2.MkOutcome true
        "Successfully processed file. Output saved to: out.xlsx"
        (Some results) /\
    length results = 1.
Proof.
  destruct (X13_process_file_success
              (V2.MkTable
                 ["UPN"; "Display Name"; "Final SIP code";
                  "Final Microsoft subcode"; "Final SIP Phrase"]
                 [V2.MkRow (inl 404%Z) (inl 560404%Z) "Not Found"])
              "out.xlsx") as (Hok & _).
  - cbn [V2.columns].
    repeat (constructor; [cbn; intuition discriminate|]). constructor.
  - intros f Hf. exact Hf.
  - repeat constructor; by eexists.
  - destruct Hok as (results & H1 & H2 & _).
    + discriminate.
    + intros Hin. cbn in Hin. intuition discriminate.
    + exists results. by split.
Defined.

(** X14: one cell that is not an integer aborts the whole batch: with all
    required columns present, if some row has such a cell then
    [process_file] fails with "Error processing file: " followed by the
    exception text of the first such cell, and nothing is written, not
    even the rows before it. *)
Theorem X14_process_file_aborts
    (cols : list string) (good rest : list V2.row) (bad : V2.row)
    (e output_path : string) :
  (forall f, In f V2.required_fields -> In f cols) ->
  Forall Facts.integer_row good ->
  Facts.row_error bad = Some e ->
  V2.process_file (V2.Loaded (V2.MkTable cols (good ++ bad :: rest)))
    output_path
  = V2.MkOutcome false ("Error processing file: " ++ e) None.
Proof.
  intros Hcols Hgood Hbad. unfold V2.process_file. cbn [V2.columns V2.rows].
  rewrite missing_fields_nil by done.
  by rewrite (process_rows_first_error good bad rest e).
Qed.

Lemma X14_process_file_aborts_witness :
  V2.process_file
    (V2.Loaded
       (V2.MkTable V2.required_fields
          [V2.MkRow (inl 200%Z) (inl 0%Z) "OK";
           V2.MkRow (inr "cannot convert float NaN to integer") (inl 0%Z) ""]))
    "out.xlsx"
  = V2.MkOutcome false
      "Error processing file: cannot convert float NaN to integer" None.
Proof.
  apply (X14_process_file_aborts V2.required_fields
           [V2.MkRow (inl 200%Z) (inl 0%Z) "OK"] []
           (V2.MkRow (inr "cannot convert float NaN to integer") (inl 0%Z) "")
           "cannot convert float NaN to integer" "out.xlsx").
  - intros f Hf. exact Hf.
  - repeat constructor; by eexists.
  - reflexivity.
Defined.

(** ** The counters and tables of TeasmLogsV3.py *)

Section Counters.
Import V3.
Local Open Scope Z_scope.

(** One iteration keeps the balance of the five counters and adds at most
    one attempted call. *)
Lemma count_row_balance c r :
  let c' := count_row c r in
  (total_attempted_calls c' - total_attempted_calls c
   = (successful_calls c' - successful_calls c)
     + (failed_calls c' - failed_calls c)
     + (warning_calls c' - warning_calls c)
     + (info_calls c' - info_calls c)) /\
  0 <= successful_calls c' - successful_calls c /\
  0 <= failed_calls c' - failed_calls c /\
  0 <= warning_calls c' - warning_calls c /\
  0 <= info_calls c' - info_calls c /\
  total_attempted_calls c' - total_attempted_calls c <= 1.
Proof.
  cbn zeta. unfold count_row. cbn zeta.
  destruct (positive_duration (duration r)); [|cbn; lia].
  destruct (determine_call_status_cases (final_sip_code r))
    as [-> | [-> | [-> | ->]]]; cbn; lia.
Qed.

Lemma fold_count_balance rs : forall c,
  let c' := fold_left count_row rs c in
  (total_attempted_calls c' - total_attempted_calls c
   = (successful_calls c' - successful_calls c)
     + (failed_calls c' - failed_calls c)
     + (warning_calls c' - warning_calls c)
     + (info_calls c' - info_calls c)) /\
  0 <= successful_calls c' - successful_calls c /\
  0 <= failed_calls c' - failed_calls c /\
  0 <= warning_calls c' - warning_calls c /\
  0 <= info_calls c' - info_calls c /\
  total_attempted_calls c' - total_attempted_calls c <= Z.of_nat (length rs).
Proof.
  induction rs as [|r rs IH]; intros c; cbn zeta.
  - cbn. lia.
  - cbn [fold_left length]. pose proof (IH (count_row c r)) as H.
    pose proof (count_row_balance c r) as H1. cbn zeta in H, H1. lia.
Qed.

End Counters.

(** X15: after the row loop the attempted calls are exactly the sum of
    the successful, failed, warning and info calls; no counter is
    negative and the attempted calls do not exceed the number of rows. *)
Theorem X15_counters_balance (rs : list V3.row) :
  let c := V3.count_rows rs in
  (V3.total_attempted_calls c
   = V3.successful_calls c + V3.failed_calls c + V3.warning_calls c
     + V3.info_calls c)%Z /\
  (0 <= V3.successful_calls c)%Z /\ (0 <= V3.failed_calls c)%Z /\
  (0 <= V3.warning_calls c)%Z /\ (0 <= V3.info_calls c)%Z /\
  (V3.total_attempted_calls c <= Z.of_nat (length rs))%Z.
Proof.
  cbn zeta. unfold V3.count_rows.
  pose proof (fold_count_balance rs V3.no_calls) as H. cbn zeta in H.
  cbn [V3.no_calls V3.total_attempted_calls V3.successful_calls
       V3.failed_calls V3.warning_calls V3.info_calls] in H. lia.
Qed.

Section Taxonomy.
Import Tables.

Lemma same_codes : dom sip_explanations = dom detailed_explanations.
Proof. by vm_compute. Qed.

Lemma simple_texts_not_default :
  map_Forall (fun _ text => text <> "Unknown SIP code") sip_explanations.
Proof.
  apply (bool_decide_unpack
           (map_Forall (fun (_ : Z) (text : string) =>
                          text <> "Unknown SIP code") sip_explanations)).
  by vm_compute.
Qed.

Lemma detailed_texts_not_default :
  map_Forall (fun _ text => text <> "No detailed explanation available")
    detailed_explanations.
Proof.
  apply (bool_decide_unpack
           (map_Forall (fun (_ : Z) (text : string) =>
                          text <> "No detailed explanation available")
              detailed_explanations)).
  by vm_compute.
Qed.

End Taxonomy.

(** X16: the two tables of TeasmLogsV3.py describe the same codes: for
    every code, the simple explanation is the fallback "Unknown SIP code"
    exactly when the detailed explanation is the fallback "No detailed
    explanation available", and exactly when the code is in neither
    table. *)
Theorem X16_explanations_agree (code subcode : Z) (phrase : string) :
  let simple := fst (fst (V3.explain_sip code subcode phrase)) in
  let detailed := snd (fst (V3.explain_sip code subcode phrase)) in
  (simple = "Unknown SIP code"
   <-> detailed = "No detailed explanation available") /\
  (simple = "Unknown SIP code" <-> Tables.sip_explanations !! code = None).
Proof.
  cbn zeta. unfold V3.explain_sip. cbn [fst snd].
  assert (Tables.sip_explanations !! code = None
          <-> Tables.detailed_explanations !! code = None) as Hdom.
  { rewrite <- !not_elem_of_dom. by rewrite same_codes. }
  destruct (Tables.sip_explanations !! code) as [s|] eqn:Es;
    destruct (Tables.detailed_explanations !! code) as [d|] eqn:Ed;
    cbn [default].
  - pose proof (simple_texts_not_default code s Es) as Hs.
    pose proof (detailed_texts_not_default code d Ed) as Hd.
    cbn beta in Hs, Hd. split; split; intros H; first [done | congruence].
  - destruct Hdom as [_ Hdom]. by specialize (Hdom eq_refl).
  - destruct Hdom as [Hdom _]. by specialize (Hdom eq_refl).
  - done.
Qed.

(** X17: the fill colour of a row is never the default white for a status
    that [determine_call_status] returns, and the four statuses have four
    different colours; any other status text is white. *)
Theorem X17_status_colours :
  (forall code,
     let colour := CallStatus.get_status_color (V3.determine_call_status code) in
     colour <> "FFFFFF" /\
     (colour = "90EE90" <->
        V3.determine_call_status code = CallStatus.SUCCESS) /\
     (colour = "FFB6C1" <->
        V3.determine_call_status code = CallStatus.FAILED)) /\
  (forall status,
     status <> CallStatus.SUCCESS -> status <> CallStatus.FAILED ->
     status <> CallStatus.WARNING -> status <> CallStatus.INFO ->
     CallStatus.get_status_color status = "FFFFFF").
Proof.
  split.
  - intros code. cbn zeta.
    destruct (determine_call_status_cases code) as [-> | [-> | [-> | ->]]];
      by vm_compute.
  - intros status H1 H2 H3 H4. unfold CallStatus.get_status_color.
    unfold CallStatus.colors. cbn [list_to_map foldr uncurry].
    by rewrite !lookup_insert_ne, lookup_empty.
Qed.

Section Formatting.

Lemma replace_char_removes a b s :
  a <> b -> Str.has_char a (Str.replace_char a b s) = false.
Proof.
  intros Hab. induction s as [|c s IH]; [done|].
  cbn [Str.replace_char Str.has_char]. rewrite IH, orb_false_r.
  destruct (Ascii.eqb_spec c a) as [->|Hc]; by apply Ascii.eqb_neq.
Qed.

Lemma replace_char_length a b s :
  String.length (Str.replace_char a b s) = String.length s.
Proof. induction s as [|c s IH]; [done|]. cbn. by rewrite IH. Qed.

End Formatting.

(** X18: the Excel table of a sheet is named "Table_" followed by the
    sheet name with every space turned into an underscore: the name holds
    no space, whatever the sheet name, and is six characters longer than
    it; the header column width is always between 12 and 30. *)
Theorem X18_table_name_and_width (sheet_name header : string) :
  Str.has_char " " (V3.table_name sheet_name) = false /\
  String.length (V3.table_name sheet_name) = 6 + String.length sheet_name /\
  12 <= V3.column_width header <= 30.
Proof.
  unfold V3.table_name, V3.column_width. split; [|split; [|lia]].
  - rewrite has_char_app, replace_char_removes by done. by vm_compute.
  - rewrite !append_cons, append_nil_l. cbn [String.length].
    by rewrite replace_char_length.
Qed.

Section RateEdges.
Local Open Scope Z_scope.

Lemma rate_all k : 0 < k -> Ref.rate k k = Some (PyFloat.of_int 100).
Proof.
  intros Hk. unfold Ref.rate, PyFloat.truediv.
  destruct (Z.eqb_spec k 0); [lia|].
  assert (Qred (Qmake (Z.sgn k * k) (Z.to_pos (Z.abs k)))
          = Qred (Qmake 1 1)) as ->.
  { apply Qred_complete. unfold Qeq. cbn [Qnum Qden].
    rewrite Z2Pos.id by lia. rewrite Z.sgn_pos by lia. lia. }
  by vm_compute.
Qed.

Lemma rate_none k : 0 < k -> Ref.rate 0 k = Some PyFloat.zero.
Proof.
  intros Hk. unfold Ref.rate, PyFloat.truediv.
  destruct (Z.eqb_spec k 0); [lia|].
  assert (Qred (Qmake (Z.sgn k * 0) (Z.to_pos (Z.abs k)))
          = Qred (Qmake 0 1)) as ->.
  { apply Qred_complete. unfold Qeq. cbn [Qnum Qden]. lia. }
  by vm_compute.
Qed.

End RateEdges.

(** X19: when some row has a duration above zero, the success rate is
    exactly 100.0 if every such row is a SUCCESS and exactly 0.0 if none
    is. *)
Theorem X19_success_rate_extremes (rs : list V3.row) :
  (0 < Ref.attempted rs)%nat ->
  (Ref.successful rs = Ref.attempted rs ->
     V3.success_rate rs = Some (PyFloat.of_int 100)) /\
  (Ref.successful rs = 0%nat -> V3.success_rate rs = Some PyFloat.zero).
Proof.
  intros Hpos. rewrite success_rate_spec.
  destruct (Z.eqb_spec (Z.of_nat (Ref.attempted rs)) 0) as [|_]; [lia|].
  split; intros ->.
  - apply rate_all. lia.
  - apply rate_none. lia.
Qed.

Lemma X19_success_rate_extremes_witness :
  V3.success_rate [V3.MkRow (Some 5%Q) 200 0 "OK"] = Some (PyFloat.of_int 100).
Proof.
  destruct (X19_success_rate_extremes [V3.MkRow (Some 5%Q) 200 0 "OK"])
    as [H _].
  - vm_compute. lia.
  - apply H. by vm_compute.
Defined.

(** ** Segmentation of any text (SIP.py) *)

Section AnyText.
Import SIP.

Lemma join_snoc (xs : list string) (y : string) :
  Str.join Str.nl (xs ++ [y])
  = match xs with
    | [] => y
    | _ :: _ => Str.join Str.nl xs ++ Str.nl ++ y
    end.
Proof.
  induction xs as [|x xs IH]; [done|].
  destruct xs as [|x' xs]; [done|].
  change ((x :: x' :: xs) ++ [y])%list with (x :: ((x' :: xs) ++ [y]))%list.
  change ((x' :: xs) ++ [y])%list with (x' :: (xs ++ [y]))%list in *.
  rewrite !join_cons_cons in *. cbn [app] in IH.
  rewrite IH. by rewrite !append_assoc.
Qed.

Lemma join_app (xs ys : list string) :
  xs <> [] -> ys <> [] ->
  Str.join Str.nl (xs ++ ys)
  = Str.join Str.nl xs ++ Str.nl ++ Str.join Str.nl ys.
Proof.
  intros Hxs Hys. induction xs as [|x xs IH]; [done|].
  destruct xs as [|x' xs].
  - destruct ys as [|y ys]; [done|]. reflexivity.
  - change ((x :: x' :: xs) ++ ys)%list with (x :: x' :: (xs ++ ys))%list.
    rewrite !join_cons_cons. cbn [app] in IH. rewrite IH by done.
    by rewrite !append_assoc.
Qed.

Lemma flush_step_nonempty st l : flush (seg_step st l) <> [].
Proof.
  unfold seg_step, flush.
  destruct (starts_block l), st as [msgs [|c cur]];
    cbn [current_message messages app]; try done;
    by destruct msgs.
Qed.

(** One step adds the line to the text of the blocks. *)
Lemma join_flush_step st l :
  Str.join Str.nl (flush (seg_step st l))
  = Str.join Str.nl (flush st ++ [l]).
Proof.
  unfold seg_step. destruct st as [msgs cur].
  destruct (starts_block l), cur as [|c cur];
    cbn [current_message messages flush app]; try reflexivity.
  (* the line joins the current block *)
  change (c :: (cur ++ [l]))%list with ((c :: cur) ++ [l])%list.
  rewrite (join_snoc (c :: cur) l).
  generalize (Str.join Str.nl (c :: cur)). intros J.
  rewrite (join_snoc (msgs ++ [J]) l), !(join_snoc msgs).
  destruct msgs as [|m msgs]; cbn [app]; [reflexivity|].
  by rewrite !append_assoc.
Qed.

Lemma join_flush_fold lines : forall st,
  lines <> [] ->
  Str.join Str.nl (flush (fold_left seg_step lines st))
  = Str.join Str.nl (flush st ++ lines).
Proof.
  induction lines as [|l lines IH]; intros st Hne; [done|].
  cbn [fold_left]. destruct lines as [|l' lines].
  - cbn [fold_left]. apply join_flush_step.
  - rewrite IH by done.
    rewrite join_app by (done || apply flush_step_nonempty).
    rewrite join_flush_step.
    change (flush st ++ l :: l' :: lines)%list
      with (flush st ++ [l] ++ (l' :: lines))%list.
    rewrite (app_assoc (flush st) [l]).
    rewrite (join_app (flush st ++ [l])); [done| |done].
    by destruct (flush st).
Qed.

(** Every list of lines is some lines without a timestamp followed by
    groups that each start at a timestamp-led line. *)
Lemma lines_decompose lines :
  exists pre groups,
    lines = (pre ++ concat (map Ref.group_lines groups))%list /\
    Forall (fun l => Ref.timestamp_led l = false) pre /\
    Forall Ref.well_formed groups.
Proof.
  induction lines as [|l lines (pre & groups & -> & Hpre & Hg)].
  - exists [], []. by repeat split.
  - destruct (Ref.timestamp_led l) eqn:Hl.
    + exists [], (Ref.MkGroup l pre :: groups).
      split; [|split; [constructor|constructor; [by split | exact Hg]]].
      reflexivity.
    + exists (l :: pre), groups. split; [done|]. split; [|exact Hg].
      by constructor.
Qed.

Lemma count_timestamp_lines pre groups :
  Forall (fun l => Ref.timestamp_led l = false) pre ->
  Forall Ref.well_formed groups ->
  length (List.filter Ref.timestamp_led
            (pre ++ concat (map Ref.group_lines groups)))
  = length groups.
Proof.
  intros Hpre Hg.
  assert (forall ls, Forall (fun l => Ref.timestamp_led l = false) ls ->
            List.filter Ref.timestamp_led ls = []) as Hnone.
  { induction 1 as [|x ls Hx _ IH]; [done|]. cbn. by rewrite Hx. }
  rewrite List.filter_app, (Hnone pre Hpre). cbn [app].
  induction Hg as [|g groups [Hhead Hmore] _ IH]; [done|].
  cbn [map concat length]. rewrite List.filter_app, length_app, IH.
  unfold Ref.group_lines. cbn [List.filter]. rewrite Hhead.
  by rewrite (Hnone _ Hmore).
Qed.

End AnyText.

(** X20: segmentation loses and adds nothing: for every text, joining the
    blocks with line feeds gives the text back. *)
Theorem X20_blocks_join_to_text (text : string) :
  Str.join Str.nl (SIP.segment text) = text.
Proof.
  unfold SIP.segment, SIP.segment_lines.
  rewrite join_flush_fold by apply split_lines_nonempty.
  cbn [SIP.flush SIP.current_message SIP.messages app].
  apply join_split_lines.
Qed.

(** X21: for every text, the number of blocks is the number of lines that
    begin with a timestamp, plus one when the first line does not; every
    block after such a leading one begins with a timestamp. *)
Theorem X21_block_count (text : string) :
  length (SIP.segment text)
  = (length (List.filter Ref.timestamp_led (Str.split_lines text))
     + (if Ref.timestamp_led (hd "" (Str.split_lines text)) then 0 else 1))%nat
  /\
  Forall (fun b => Ref.timestamp_led b = true)
    (if Ref.timestamp_led (hd "" (Str.split_lines text))
     then SIP.segment text else tl (SIP.segment text)).
Proof.
  unfold SIP.segment.
  pose proof (split_lines_nonempty text) as Hne.
  destruct (lines_decompose (Str.split_lines text))
    as (pre & groups & Hlines & Hpre & Hg).
  rewrite Hlines in *. rewrite segment_lines_spec by done.
  rewrite count_timestamp_lines by done.
  assert (Forall (fun b => Ref.timestamp_led b = true)
            (map Ref.block_of groups)) as Hblocks.
  { clear Hlines Hne. induction Hg as [|g groups Hwf _ IH]; constructor.
    - by apply block_of_timestamp_led.
    - exact IH. }
  unfold Ref.blocks_of. destruct pre as [|p pre].
  - cbn [app hd]. destruct groups as [|g groups]; [done|].
    cbn [map concat Ref.group_lines app hd].
    inversion Hg as [|? ? [Hhead _] _]; subst. rewrite Hhead.
    split; [cbn [length]; rewrite length_map; lia | exact Hblocks].
  - cbn [app hd]. inversion Hpre as [|? ? Hp _]; subst. rewrite Hp.
    cbn [length tl]. split; [rewrite length_map; lia | exact Hblocks].
Qed.

Lemma X12_error_category_by_value_witness :
  V2.get_error_category 302 = "Uncategorized" /\
  V2.get_error_category 502 = "Routing".
Proof.
  destruct X12_error_category_by_value as (Hspec & _ & Hout). split.
  - apply Hout. lia.
  - rewrite Hspec. by vm_compute.
Defined.

Lemma X17_status_colours_witness :
  CallStatus.get_status_color "Success" = "FFFFFF".
Proof.
  destruct X17_status_colours as [_ H]. by apply H.
Defined.
